(** * aurea-bot: the WhatsApp booking webhook of [hotel-bot-server.js]

    A shallow embedding of the request handler [app.post('/whatsapp')],
    of [isRangeAvailable] and of the date handling the handler delegates to
    dayjs, followed by the properties of the conversation state machine, of
    the overlap check and of the booking-confirmation pipeline. The handler
    of the earlier copy of the server is embedded next to it, in
    [Part000].

    JavaScript strings are sequences of UTF-16 code units; the collaborators
    (Firestore, Twilio, the QR encoder, PDFKit, the FTP server, OpenAI) are
    calls that either succeed and are logged, or throw. *)

From Stdlib Require Import ZArith NArith Ascii String List Bool Lia.
From stdpp Require Import base option list gmap.
Import ListNotations.

Local Open Scope N_scope.

(** ** JavaScript strings *)

Module JsString.

(** A string value: its UTF-16 code units. *)
Abbreviation jsstring := (list N).

(** Code points of a UTF-8 byte sequence ([need] continuation bytes are still
    expected for the code point accumulated in [acc]). *)
Fixpoint utf8_points (bs : list N) (need : nat) (acc : N) : list N :=
  match bs with
  | [] => []
  | b :: bs' =>
      match need with
      | O =>
          if b <? 128 then b :: utf8_points bs' 0 0
          else if b <? 224 then utf8_points bs' 1 (b - 192)
          else if b <? 240 then utf8_points bs' 2 (b - 224)
          else utf8_points bs' 3 (b - 240)
      | S n =>
          let acc' := acc * 64 + (b - 128) in
          match n with
          | O => acc' :: utf8_points bs' 0 0
          | S _ => utf8_points bs' n acc'
          end
      end
  end.

(** UTF-16 code units of one code point. *)
Definition utf16_units (cp : N) : list N :=
  if cp <? 65536 then [cp]
  else [55296 + (cp - 65536) / 1024; 56320 + (cp - 65536) mod 1024].

(** The string value denoted by a source literal (source files are UTF-8). *)
Definition js (s : string) : jsstring :=
  flat_map utf16_units
    (utf8_points (map N_of_ascii (list_ascii_of_string s)) 0 0).

(** The line feed written [\n] inside the source's literals. *)
Definition LF : jsstring := [10].

(** [a < b] on strings: lexicographic order of the code units, a proper
    prefix being smaller. *)
Fixpoint str_lt (a b : jsstring) : bool :=
  match a, b with
  | _, [] => false
  | [], _ :: _ => true
  | x :: a', y :: b' =>
      if x <? y then true
      else if y <? x then false
      else str_lt a' b'
  end.

(** [a > b] is [b < a]. *)
Definition str_gt (a b : jsstring) : bool := str_lt b a.

(** [a === b] on strings. *)
Definition str_eq (a b : jsstring) : bool := bool_decide (a = b).

(** White space and line terminators: what [\s] matches and what [trim]
    strips. *)
Definition is_space (c : N) : bool :=
  (9 <=? c) && (c <=? 13) || (c =? 32) || (c =? 160) || (c =? 5760)
  || (8192 <=? c) && (c <=? 8202) || (c =? 8232) || (c =? 8233)
  || (c =? 8239) || (c =? 8287) || (c =? 12288) || (c =? 65279).

(** What [\d] matches: the ASCII digits only. *)
Definition is_digit (c : N) : bool := (48 <=? c) && (c <=? 57).

Fixpoint trimStart (s : jsstring) : jsstring :=
  match s with
  | c :: s' => if is_space c then trimStart s' else s
  | [] => []
  end.

Definition trimEnd (s : jsstring) : jsstring := rev (trimStart (rev s)).

Definition trim (s : jsstring) : jsstring := trimEnd (trimStart s).

(** [toLowerCase] on the characters the handler can tell apart: the result
    is only ever compared with the ASCII literals ['hola'], ['menu'] and
    ['1'] to ['4'], and no character outside A-Z lower-cases to a character
    of those literals, so the letters A-Z are mapped and the rest kept. *)
Definition lower (c : N) : N :=
  if (65 <=? c) && (c <=? 90) then c + 32 else c.

Definition toLowerCase (s : jsstring) : jsstring := map lower s.

(** [s.startsWith(p)], with the remainder. *)
Fixpoint strip_prefix (p s : jsstring) : option jsstring :=
  match p, s with
  | [], _ => Some s
  | x :: p', y :: s' => if x =? y then strip_prefix p' s' else None
  | _ :: _, [] => None
  end.

(** [s.replace(p, '')] for a string pattern [p]: the first occurrence of
    [p] is removed. *)
Fixpoint remove_first (p s : jsstring) : jsstring :=
  match strip_prefix p s with
  | Some rest => rest
  | None =>
      match s with
      | [] => []
      | c :: s' => c :: remove_first p s'
      end
  end.

End JsString.
Export JsString.


(** ** Calendar dates: the ECMAScript day arithmetic behind [Date] *)

Module JsDate.

Local Open Scope Z_scope.

(** Day number (days since 1970-01-01) of 1 January of year [y]. *)
Definition DayFromYear (y : Z) : Z :=
  365 * (y - 1970) + (y - 1969) / 4 - (y - 1901) / 100 + (y - 1601) / 400.

Definition isLeap (y : Z) : bool :=
  (y mod 4 =? 0) && (negb (y mod 100 =? 0) || (y mod 400 =? 0)).

Definition InLeapYear (y : Z) : Z := if isLeap y then 1 else 0.

Definition DaysInYear (y : Z) : Z := 365 + InLeapYear y.

(** The year a day number falls in: the largest [y] with
    [DayFromYear y <= d], found by correcting the estimate given by the mean
    length of a year. *)
Definition YearFromDay (d : Z) : Z :=
  let y0 := 1970 + d * 400 / 146097 in
  if DayFromYear (y0 + 1) <=? d then y0 + 1
  else if DayFromYear y0 <=? d then y0
  else y0 - 1.

(** Days of a year that precede month [m] (0 = January), [L] being 1 in a
    leap year. *)
Definition DaysBeforeMonth (m L : Z) : Z :=
  match m with
  | 0 => 0 | 1 => 31 | 2 => 59 + L | 3 => 90 + L | 4 => 120 + L
  | 5 => 151 + L | 6 => 181 + L | 7 => 212 + L | 8 => 243 + L
  | 9 => 273 + L | 10 => 304 + L | _ => 334 + L
  end.

(** [MonthFromTime], on the day within the year. *)
Definition MonthFromDay (dw L : Z) : Z :=
  if dw <? 31 then 0
  else if dw <? 59 + L then 1
  else if dw <? 90 + L then 2
  else if dw <? 120 + L then 3
  else if dw <? 151 + L then 4
  else if dw <? 181 + L then 5
  else if dw <? 212 + L then 6
  else if dw <? 243 + L then 7
  else if dw <? 273 + L then 8
  else if dw <? 304 + L then 9
  else if dw <? 334 + L then 10
  else 11.

(** [MakeDay(year, month, date)]: months beyond 0..11 carry into the year,
    and the date counts on from the first of the month, whatever its
    size. *)
Definition MakeDay (year month date : Z) : Z :=
  let ym := year + month / 12 in
  let mn := month mod 12 in
  DayFromYear ym + DaysBeforeMonth mn (InLeapYear ym) + date - 1.

(** [new Date(y, M, d)]: a year from 0 to 99 stands for 1900 + y. The value
    is kept as a local day number; the time of day is midnight. *)
Definition newDate (y M d : Z) : Z :=
  let yr := if (0 <=? y) && (y <=? 99) then 1900 + y else y in
  MakeDay yr M d.

Definition getFullYear (t : Z) : Z := YearFromDay t.

Definition getMonth (t : Z) : Z :=
  let y := YearFromDay t in
  MonthFromDay (t - DayFromYear y) (InLeapYear y).

Definition getDate (t : Z) : Z :=
  let y := YearFromDay t in
  let dw := t - DayFromYear y in
  dw - DaysBeforeMonth (MonthFromDay dw (InLeapYear y)) (InLeapYear y) + 1.



End JsDate.
Export JsDate.

(** ** dayjs with the customParseFormat plugin

    [dayjs(input, 'DD/MM/YYYY')] is called without the strict flag: the
    plugin reads the numeric fields of the template and hands them to
    [new Date(y, M, d)], whose arithmetic carries fields that are out of
    range. [format('YYYY-MM-DD')] pads the local year, month and date. *)

Module Dayjs.

Local Open Scope Z_scope.

(** The current local date ([getFullYear], [getMonth] from 0, [getDate]),
    read by the plugin for fields that are zero. *)
Record Now := { nowYear : Z; nowMonth : Z; nowDate : Z }.

Definition digit (c : N) : option Z :=
  if is_digit c then Some (Z.of_N c - 48) else None.

(** The fields the template [DD/MM/YYYY] reads from a group
    [dd/dd/dddd] of the handler's pattern: day, month, year. Other inputs do
    not reach the parser; they are given no date. *)
Definition makeParser (input : jsstring) : option (Z * Z * Z) :=
  match input with
  | [d1; d2; _; m1; m2; _; y1; y2; y3; y4] =>
      a ← digit d1; b ← digit d2;
      c ← digit m1; d ← digit m2;
      e ← digit y1; f ← digit y2; g ← digit y3; h ← digit y4;
      Some (10 * a + b, 10 * c + d, 1000 * e + 100 * f + 10 * g + h)
  | _ => None
  end.

(** [parseFormattedInput]: a zero (falsy) field falls back on the current
    date or on the first of the year or month; [None] is the invalid
    [Date]. *)
Definition parseFormattedInput (now : Now) (input : jsstring) : option Z :=
  '(day, month, year) ← makeParser input;
  let d :=
    if day =? 0
    then (if (year =? 0) && (month =? 0) then nowDate now else 1)
    else day in
  let y := if year =? 0 then nowYear now else year in
  let M :=
    if negb (year =? 0) && (month =? 0) then 0
    else if 0 <? month then month - 1 else nowMonth now in
  Some (newDate y M d).

(** Decimal digits of a non-negative integer, most significant first (a
    number has no more decimal digits than binary ones, which bounds the
    loop). *)
Fixpoint digits (fuel : nat) (n : Z) (acc : jsstring) : jsstring :=
  match fuel with
  | O => acc
  | S fuel' =>
      let acc' := (48 + Z.to_N (n mod 10))%N :: acc in
      if n / 10 =? 0 then acc' else digits fuel' (n / 10) acc'
  end.

(** [String(n)] for an integer. *)
Definition numToString (n : Z) : jsstring :=
  if n <? 0 then 45%N :: digits (S (Z.to_nat (Z.log2 (- n)))) (- n) []
  else digits (S (Z.to_nat (Z.log2 n))) n [].

(** [Utils.s]: [padStart] with zeros up to [len] code units; an empty
    string is returned as it is. *)
Definition padStart (len : nat) (s : jsstring) : jsstring :=
  match s with
  | [] => []
  | _ :: _ => repeat 48%N (len - length s) ++ s
  end.

Definition INVALID_DATE_STRING : jsstring := js "Invalid Date".

(** [dayjs(input, 'DD/MM/YYYY').format('YYYY-MM-DD')]. *)
Definition format (date : option Z) : jsstring :=
  match date with
  | None => INVALID_DATE_STRING
  | Some t =>
      padStart 4 (numToString (getFullYear t)) ++ js "-"
      ++ padStart 2 (numToString (getMonth t + 1)) ++ js "-"
      ++ padStart 2 (numToString (getDate t))
  end.

Definition dayjs (now : Now) (input : jsstring) : option Z :=
  parseFormattedInput now input.

End Dayjs.
Export Dayjs.

(** ** The date-range pattern *)

Module Pattern.

(** [\d{2}\/\d{2}\/\d{4}] at the head of [s]: the text matched and what
    follows it. *)
Definition date_at (s : jsstring) : option (jsstring * jsstring) :=
  match s with
  | a :: b :: s1 :: c :: d :: s2 :: e :: f :: g :: h :: rest =>
      if is_digit a && is_digit b && (s1 =? 47)
         && is_digit c && is_digit d && (s2 =? 47)
         && is_digit e && is_digit f && is_digit g && is_digit h
      then Some ([a; b; s1; c; d; s2; e; f; g; h], rest)
      else None
  | _ => None
  end.

(** The whole pattern at the head of [s], with its two groups. [\s*] is
    greedy and is followed by a character that is not white space, so taking
    all the white space is the only way to match. *)
Definition match_at (s : jsstring) : option (jsstring * jsstring) :=
  '(g1, r1) ← date_at s;
  match trimStart r1 with
  | 45 :: r2 => '(g2, _) ← date_at (trimStart r2); Some (g1, g2)
  | _ => None
  end.

(** [text.match(/(\d{2}\/\d{2}\/\d{4})\s*-\s*(\d{2}\/\d{2}\/\d{4})/)]: the
    groups of the leftmost match, [None] for [null]. *)
Fixpoint regex_match (s : jsstring) : option (jsstring * jsstring) :=
  match match_at s with
  | Some m => Some m
  | None =>
      match s with
      | [] => None
      | _ :: s' => regex_match s'
      end
  end.

End Pattern.
Export Pattern.

(** ** The webhook: collaborators, state and the handler *)

Module Bot.

Local Open Scope Z_scope.

(** [admin.firestore.FieldValue.serverTimestamp()]: the sentinel the server
    replaces by its clock. *)
Inductive FieldValue := serverTimestamp.

(** A document of the collection ['reservas']. *)
Record Reserva := {
  nombre : jsstring;
  phone : jsstring;
  fechaEntrada : jsstring;
  fechaSalida : jsstring;
  roomId : jsstring;
  personas : Z;
  origen : jsstring;
  estado : jsstring;
  createdAt : FieldValue;
  updatedAt : FieldValue
}.

(** The object handed to [generarPDFReserva]. *)
Record PdfReserva := {
  pdf_id : jsstring;
  pdf_nombre : jsstring;
  pdf_fechaEntrada : jsstring;
  pdf_fechaSalida : jsstring;
  pdf_personas : Z
}.

(** Binary artifacts, named by what they were produced from. *)
Inductive Buffer :=
| QRImage (data : jsstring)
| PdfDocument (reserva : PdfReserva) (qr : Buffer).

(** Calls to the collaborators. *)
Inductive Call :=
| FirestoreGet (room : jsstring)
| FirestoreAdd (r : Reserva)
| QRCodeToBuffer (data : jsstring)
| FtpUpload (filename : jsstring) (content : Buffer)
| PdfKit (reserva : PdfReserva) (qr : Buffer)
| TwilioCreate (to body : jsstring) (mediaUrl : option jsstring)
| OpenAIChat (content : jsstring).

(** What a turn does, in order: collaborator calls that succeeded and
    writes to the [sessions] object. *)
Inductive Effect :=
| Called (c : Call)
| SessionSet (from : jsstring)
| SessionDelete (from : jsstring).

Record Session := { step : jsstring }.

(** The process and its surroundings: the [sessions] object, the
    ['reservas'] collection (document id and data) and the effects so far.

    [sessions] is a plain object, [{}], read only through
    [sessions[from]?.step]. The map holds, for a name, what that reading
    finds: a property of the object's own, and under ['__proto__'] the
    object that an assignment has made the prototype of [sessions] (the
    name is that of the accessor inherited from [Object.prototype], so an
    assignment to it stores no property). What else is inherited, from
    [Object.prototype] or from such a new prototype, has no [step] and is
    left out of the map. *)
Record World := {
  sessions : gmap jsstring Session;
  reservas : list (jsstring * Reserva);
  log : list Effect
}.

(** What the surroundings decide during one turn: which calls throw, the
    id Firestore gives a new document, the local date and the answer of
    the chat model. *)
Record Env := {
  fails : Call -> bool;
  newId : jsstring;
  today : Now;
  aiResponse : jsstring -> jsstring
}.

(** The body of a [POST /whatsapp] request. *)
Record Request := { Body : option jsstring; From : jsstring }.

(** [res.status(code).end()]. *)
Inductive Response := Status (code : Z).

(** An [async] computation: it returns, or throws the failure of a call
    (the handler's promise is then rejected). *)
Inductive Res (A : Type) :=
| Ok (a : A)
| Throw (c : Call).
Arguments Ok {A} a.
Arguments Throw {A} c.

Definition M (A : Type) : Type := World -> Res A * World.

#[export] Instance M_ret : MRet M := fun A a w => (Ok a, w).

#[export] Instance M_bind : MBind M := fun A B f m w =>
  match m w with
  | (Ok a, w') => f a w'
  | (Throw c, w') => (Throw c, w')
  end.

(** [try { body } catch (err) { handler }]. *)
Definition try_catch {A} (body : M A) (handler : Call -> M A) : M A :=
  fun w =>
    match body w with
    | (Ok a, w') => (Ok a, w')
    | (Throw c, w') => handler c w'
    end.

Definition emit (e : Effect) : M unit := fun w =>
  (Ok tt, {| sessions := sessions w; reservas := reservas w;
             log := log w ++ [e] |}).

Section Turn.

Variable env : Env.

(** An awaited collaborator call. *)
Definition call (c : Call) : M unit := fun w =>
  if fails env c then (Throw c, w) else emit (Called c) w.

(** [sessions[from]], as far as [?.step] can tell. *)
Definition sessions_get (from : jsstring) : M (option Session) := fun w =>
  (Ok (sessions w !! from), w).

(** [sessions[from] = s]: a property of the object's own or, for
    ['__proto__'], its new prototype; either way what [sessions[from]]
    reads from then on. *)
Definition sessions_set (from : jsstring) (s : Session) : M unit := fun w =>
  emit (SessionSet from)
    {| sessions := <[from := s]> (sessions w); reservas := reservas w;
       log := log w |}.

(** What [delete o[name]] leaves of an object: a property of its own is
    removed; ['__proto__'] is never one, and the prototype stays. *)
Definition delete_own (name : jsstring) (o : gmap jsstring Session)
  : gmap jsstring Session :=
  if bool_decide (name = js "__proto__") then o else delete name o.

(** [delete sessions[from]]. *)
Definition sessions_delete (from : jsstring) : M unit := fun w =>
  emit (SessionDelete from)
    {| sessions := delete_own from (sessions w); reservas := reservas w;
       log := log w |}.

(** [db.collection('reservas').where('roomId', '==', room).get()]. *)
Definition where_roomId (room : jsstring) : M (list Reserva) := fun w =>
  (call (FirestoreGet room);;
   mret (map snd
     (filter (fun d => roomId (snd d) = room) (reservas w)))) w.

(** [db.collection('reservas').add(reserva)]: the id of the new document. *)
Definition add (r : Reserva) : M jsstring := fun w =>
  match call (FirestoreAdd r) w with
  | (Ok _, w') =>
      (Ok (newId env),
       {| sessions := sessions w'; log := log w';
          reservas := reservas w' ++ [(newId env, r)] |})
  | (Throw c, w') => (Throw c, w')
  end.

Definition toBuffer (data : jsstring) : M Buffer :=
  call (QRCodeToBuffer data);; mret (QRImage data).

Definition uploadQRtoFTP (qrBuffer : Buffer) (filename : jsstring)
  : M jsstring :=
  call (FtpUpload filename qrBuffer);;
  mret (js "https://duomoholding.com/qr/" ++ filename).

Definition generarPDFReserva (reserva : PdfReserva) (qrBuffer : Buffer)
  : M Buffer :=
  call (PdfKit reserva qrBuffer);; mret (PdfDocument reserva qrBuffer).

Definition uploadPDFtoFTP (pdfBuffer : Buffer) (filename : jsstring)
  : M jsstring :=
  call (FtpUpload filename pdfBuffer);;
  mret (js "https://duomoholding.com/qr/" ++ filename).

(** [sendMessage(to, body, mediaUrl)]: a [mediaUrl] that is missing or empty
    is left out of the options. *)
Definition sendMessage (to body : jsstring) (mediaUrl : option jsstring)
  : M unit :=
  call (TwilioCreate to body
          (match mediaUrl with
           | Some [] | None => None
           | Some url => Some url
           end)).

(** The loop of [isRangeAvailable] over the documents of the room. *)
Fixpoint scan (docs : list Reserva) (startDate endDate : jsstring) : bool :=
  match docs with
  | [] => true
  | data :: docs' =>
      if negb (str_lt endDate (fechaEntrada data)
               || str_gt startDate (fechaSalida data))
      then false
      else scan docs' startDate endDate
  end.

Definition isRangeAvailable (room startDate endDate : jsstring) : M bool :=
  docs ← where_roomId room;
  mret (scan docs startDate endDate).

Definition waiting_dates : jsstring := js "waiting_dates".

(** The branch taken when the room is free: booking, QR code, PDF and the
    confirmation message. *)
Definition confirmar (from startDate endDate room : jsstring) : M unit :=
  let reserva := {|
    nombre := js "Huésped WhatsApp";
    phone := remove_first (js "whatsapp:") from;
    fechaEntrada := startDate;
    fechaSalida := endDate;
    roomId := room;
    personas := 1;
    origen := js "WhatsApp";
    estado := js "confirmada";
    createdAt := serverTimestamp;
    updatedAt := serverTimestamp |} in
  ref_id ← add reserva;
  let qrData :=
    js "Reserva ID: " ++ ref_id ++ LF ++ js "Check-in: " ++ startDate
    ++ js " - " ++ endDate ++ LF ++ js "Room: " ++ room in
  qrBuffer ← toBuffer qrData;
  let qrFilename := js "reserva-" ++ ref_id ++ js ".png" in
  uploadQRtoFTP qrBuffer qrFilename;;
  pdfBuffer ← generarPDFReserva {|
    pdf_id := ref_id;
    pdf_nombre := nombre reserva;
    pdf_fechaEntrada := startDate;
    pdf_fechaSalida := endDate;
    pdf_personas := personas reserva |} qrBuffer;
  let pdfFilename := js "reserva-" ++ ref_id ++ js ".pdf" in
  pdfUrl ← uploadPDFtoFTP pdfBuffer pdfFilename;
  sendMessage from
    (js "✅ Reserva confirmada" ++ LF ++ js "ID: " ++ ref_id ++ LF
     ++ js "Fechas: " ++ startDate ++ js " a " ++ endDate ++ LF
     ++ js "Aquí tienes tu confirmación en PDF:")
    (Some pdfUrl).

(** After the dates are read: the availability check for room ['1'], the
    decline or the booking, then the end of the session. *)
Definition reservar (from startDate endDate : jsstring) : M Response :=
  let room := js "1" in
  available ← isRangeAvailable room startDate endDate;
  (if negb available
   then sendMessage from
          (js "😔 No disponible del " ++ startDate ++ js " al "
           ++ endDate ++ js ".") None
   else confirmar from startDate endDate room);;
  sessions_delete from;;
  mret (Status 200).

(** The state "waiting for the dates of the booking". *)
Definition esperando_fechas (from incomingMsg : jsstring) : M Response :=
  match regex_match incomingMsg with
  | None =>
      sendMessage from
        (js "Formato inválido. Ejemplo: 20/10/2025 - 23/10/2025") None;;
      mret (Status 200)
  | Some (m1, m2) =>
      let startDate := format (dayjs (today env) m1) in
      let endDate := format (dayjs (today env) m2) in
      reservar from startDate endDate
  end.

(** The fallback for free text: the chat model, with its own [catch]. *)
Definition fallback (from incomingMsg : jsstring) : M unit :=
  try_catch
    (call (OpenAIChat incomingMsg);;
     sendMessage from (js "🤖 " ++ aiResponse env incomingMsg) None)
    (fun _ =>
       sendMessage from
         (js "Lo siento, no pude procesar tu consulta ahora.") None).

(** [req.body.Body?.trim() || '']. *)
Definition incomingMsg (req : Request) : jsstring :=
  match Body req with
  | Some b => trim b
  | None => []
  end.

(** [app.post('/whatsapp', async (req, res) => ...)]. *)
Definition whatsapp (req : Request) : M Response :=
  let incomingMsg := incomingMsg req in
  let from := From req in
  let msg := toLowerCase incomingMsg in
  s ← sessions_get from;
  if bool_decide (step <$> s = Some waiting_dates)
  then esperando_fechas from incomingMsg
  else if str_eq msg (js "hola") || str_eq msg (js "menu")
  then
    sendMessage from
      (js "👋 ¡Bienvenido a La Casona Miraflores!" ++ LF
       ++ js "Por favor selecciona una opción:" ++ LF ++ LF
       ++ js "1️⃣ Reservas" ++ LF
       ++ js "2️⃣ Tours" ++ LF
       ++ js "3️⃣ Ofertas" ++ LF
       ++ js "4️⃣ Hablar con un asesor") None;;
    mret (Status 200)
  else
    (if str_eq msg (js "1") then
       sessions_set from {| step := waiting_dates |};;
       sendMessage from
         (js "📅 Por favor indícame tus fechas en el formato DD/MM/YYYY - DD/MM/YYYY")
         None
     else if str_eq msg (js "2") then
       sendMessage from
         (js "🌄 Tenemos los siguientes tours:" ++ LF
          ++ js "- City Tour Cusco" ++ LF ++ js "- Valle Sagrado" ++ LF
          ++ js "- Machu Picchu" ++ LF ++ LF
          ++ js "¿Quieres más info de alguno?") None
     else if str_eq msg (js "3") then
       sendMessage from
         (js "🎁 Oferta especial: 10% de descuento en reservas de más de 3 noches.")
         None
     else if str_eq msg (js "4") then
       sendMessage from
         (js "👨‍💼 En breve un asesor humano se pondrá en contacto contigo.")
         None
     else fallback from incomingMsg);;
    mret (Status 200).

End Turn.

(** The process starts with [sessions = {}]. *)
Definition boot (docs : list (jsstring * Reserva)) : World :=
  {| sessions := ∅; reservas := docs; log := [] |}.

(** Turns handled one after the other, each with its own surroundings; a
    turn that throws leaves the world as it was when it threw. A turn runs
    to its end before the next one starts: turns that interleave at an
    [await] are not part of this model. *)
Fixpoint serve (turns : list (Env * Request)) (w : World) : World :=
  match turns with
  | [] => w
  | (env, req) :: turns' => serve turns' (snd (whatsapp env req w))
  end.

End Bot.
Export Bot.

(** ** The earlier entry point

    The repository keeps a second copy of the server, without the
    customParseFormat plugin and without the chat fallback. Its helper
    functions ([isRangeAvailable], the uploads, [generarPDFReserva],
    [sendMessage]) are the same text; its handler differs in the menu, in
    the way the confirmation is sent and in the dates: without the plugin
    dayjs ignores the template, and a text [dd/dd/dddd], which does not
    start with a year, is handed to [new Date(text)], whose reading of such
    a text is left to the JavaScript engine. *)

Module Part000.

Section Turn.

Variable env : Env.

(** [new Date(text)] for a text that is not in the ISO format: the local
    day, or [None] for an invalid date. *)
Variable engineDate : jsstring -> option Z.

Definition dayjs (input : jsstring) : option Z := engineDate input.

Definition confirmar (from startDate endDate room : jsstring) : M unit :=
  let reserva := {|
    nombre := js "Huésped WhatsApp";
    phone := remove_first (js "whatsapp:") from;
    fechaEntrada := startDate;
    fechaSalida := endDate;
    roomId := room;
    personas := 1;
    origen := js "WhatsApp";
    estado := js "confirmada";
    createdAt := serverTimestamp;
    updatedAt := serverTimestamp |} in
  ref_id ← add env reserva;
  let qrData :=
    js "Reserva ID: " ++ ref_id ++ LF ++ js "Check-in: " ++ startDate
    ++ js " - " ++ endDate ++ LF ++ js "Room: " ++ room in
  qrBuffer ← toBuffer env qrData;
  let qrFilename := js "reserva-" ++ ref_id ++ js ".png" in
  uploadQRtoFTP env qrBuffer qrFilename;;
  pdfBuffer ← generarPDFReserva env {|
    pdf_id := ref_id;
    pdf_nombre := nombre reserva;
    pdf_fechaEntrada := startDate;
    pdf_fechaSalida := endDate;
    pdf_personas := personas reserva |} qrBuffer;
  let pdfFilename := js "reserva-" ++ ref_id ++ js ".pdf" in
  pdfUrl ← uploadPDFtoFTP env pdfBuffer pdfFilename;
  call env
    (TwilioCreate from
       (js "✅ Reserva confirmada" ++ LF ++ js "ID: " ++ ref_id ++ LF
        ++ js "Fechas: " ++ startDate ++ js " a " ++ endDate ++ LF
        ++ js "Aquí tienes tu confirmación en PDF:")
       (Some pdfUrl)).

Definition reservar (from startDate endDate : jsstring) : M Response :=
  let room := js "1" in
  available ← isRangeAvailable env room startDate endDate;
  (if negb available
   then sendMessage env from
          (js "😔 No disponible del " ++ startDate ++ js " al "
           ++ endDate ++ js ".") None
   else confirmar from startDate endDate room);;
  sessions_delete from;;
  mret (Status 200).

Definition esperando_fechas (from incomingMsg : jsstring) : M Response :=
  match regex_match incomingMsg with
  | None =>
      sendMessage env from
        (js "Formato inválido. Ejemplo: 20/10/2025 - 23/10/2025") None;;
      mret (Status 200)
  | Some (m1, m2) =>
      let startDate := format (dayjs m1) in
      let endDate := format (dayjs m2) in
      reservar from startDate endDate
  end.

Definition whatsapp (req : Request) : M Response :=
  let incomingMsg := incomingMsg req in
  let from := From req in
  let msg := toLowerCase incomingMsg in
  s ← sessions_get from;
  if bool_decide (step <$> s = Some waiting_dates)
  then esperando_fechas from incomingMsg
  else
    (if str_eq msg (js "1") then
       sessions_set from {| step := waiting_dates |};;
       sendMessage env from
         (js "Por favor indícame tus fechas en el formato DD/MM/YYYY - DD/MM/YYYY")
         None
     else if str_eq msg (js "hola") || str_eq msg (js "menu") then
       sendMessage env from
         (js "Hola 👋 Opciones:" ++ LF
          ++ js "1️⃣ Consultar disponibilidad" ++ LF
          ++ js "2️⃣ Info check-in" ++ LF
          ++ js "3️⃣ WiFi y cocina" ++ LF
          ++ js "4️⃣ Hablar con humano") None
     else
       sendMessage env from
         (js "No entendí 🙏 escribe *hola* para ver el menú.") None);;
    mret (Status 200).

End Turn.

(** Turns handled one after the other by the earlier handler. *)
Fixpoint serve (engineDate : jsstring -> option Z)
    (turns : list (Env * Request)) (w : World) : World :=
  match turns with
  | [] => w
  | (env, req) :: turns' =>
      serve engineDate turns' (snd (whatsapp env engineDate req w))
  end.

End Part000.

(** ** Notions used to state the properties *)

Module Spec.

(** [a <= b] on strings. *)
Definition str_le (a b : jsstring) : Prop := str_lt b a = false.

(** The candidate range [[s, e]] conflicts with the booking [r]: it is not
    the case that the candidate ends before the booking starts or starts
    after it ends. *)
Definition conflicts (s e : jsstring) (r : Reserva) : Prop :=
  ~ (str_lt e (fechaEntrada r) = true \/ str_gt s (fechaSalida r) = true).

(** The bookings stored for a room. *)
Definition bookings_of (room : jsstring) (w : World) : list Reserva :=
  map snd (filter (fun d => roomId (snd d) = room) (reservas w)).

(** The character of a decimal digit. *)
Definition digit_char (k : Z) : N := (48 + Z.to_N k)%N.

(** The date-range parser of the handler: the two groups of the pattern,
    each through [dayjs(...).format(...)]; [None] when the pattern is not
    found. *)
Definition parse_range (now : Now) (text : jsstring)
  : option (jsstring * jsstring) :=
  match regex_match text with
  | Some (m1, m2) => Some (format (dayjs now m1), format (dayjs now m2))
  | None => None
  end.


(** A text [dd/dd/dddd]. *)
Definition is_group (g : jsstring) : Prop := date_at g = Some (g, []).





(** Every stored session waits for dates. *)
Definition sessions_ok (w : World) : Prop :=
  forall from s, sessions w !! from = Some s -> step s = waiting_dates.

(** *** The replies and the steps of a booking *)

Definition FORMATO_INVALIDO : jsstring :=
  js "Formato inválido. Ejemplo: 20/10/2025 - 23/10/2025".

Definition PIDE_FECHAS : jsstring :=
  js "📅 Por favor indícame tus fechas en el formato DD/MM/YYYY - DD/MM/YYYY".

Definition no_disponible (s e : jsstring) : jsstring :=
  js "😔 No disponible del " ++ s ++ js " al " ++ e ++ js ".".

Definition reserva_confirmada (id s e : jsstring) : jsstring :=
  js "✅ Reserva confirmada" ++ LF ++ js "ID: " ++ id ++ LF
  ++ js "Fechas: " ++ s ++ js " a " ++ e ++ LF
  ++ js "Aquí tienes tu confirmación en PDF:".

(** The booking written for a sender and a range. *)
Definition la_reserva (from s e : jsstring) : Reserva := {|
  nombre := js "Huésped WhatsApp";
  phone := remove_first (js "whatsapp:") from;
  fechaEntrada := s;
  fechaSalida := e;
  roomId := js "1";
  personas := 1;
  origen := js "WhatsApp";
  estado := js "confirmada";
  createdAt := serverTimestamp;
  updatedAt := serverTimestamp |}.

Definition qr_data (id s e : jsstring) : jsstring :=
  js "Reserva ID: " ++ id ++ LF ++ js "Check-in: " ++ s ++ js " - " ++ e
  ++ LF ++ js "Room: " ++ js "1".

Definition el_pdf (id s e : jsstring) : Buffer :=
  PdfDocument {|
    pdf_id := id;
    pdf_nombre := js "Huésped WhatsApp";
    pdf_fechaEntrada := s;
    pdf_fechaSalida := e;
    pdf_personas := 1 |} (QRImage (qr_data id s e)).

Definition stored_at (filename : jsstring) : jsstring :=
  js "https://duomoholding.com/qr/" ++ filename.

(** The calls of the booking-confirmation pipeline, in the order of the
    claim: persist, encode, store the image, render, store the document,
    send. *)
Definition pipeline (id from s e : jsstring) : list Call :=
  [ FirestoreAdd (la_reserva from s e);
    QRCodeToBuffer (qr_data id s e);
    FtpUpload (js "reserva-" ++ id ++ js ".png") (QRImage (qr_data id s e));
    PdfKit {|
      pdf_id := id;
      pdf_nombre := js "Huésped WhatsApp";
      pdf_fechaEntrada := s;
      pdf_fechaSalida := e;
      pdf_personas := 1 |} (QRImage (qr_data id s e));
    FtpUpload (js "reserva-" ++ id ++ js ".pdf") (el_pdf id s e);
    TwilioCreate from (reserva_confirmada id s e)
      (Some (stored_at (js "reserva-" ++ id ++ js ".pdf"))) ].

(** The calls of a list made before the first that throws, and that one. *)
Fixpoint until_failure (failing : Call -> bool) (cs : list Call)
  : list Call * option Call :=
  match cs with
  | [] => ([], None)
  | c :: cs' =>
      if failing c then ([], Some c)
      else let '(done, f) := until_failure failing cs' in (c :: done, f)
  end.

Definition is_add (e : Effect) : bool :=
  match e with Called (FirestoreAdd _) => true | _ => false end.

Definition is_artifact (e : Effect) : bool :=
  match e with
  | Called (QRCodeToBuffer _) | Called (FtpUpload _ _) | Called (PdfKit _ _)
      => true
  | _ => false
  end.

Definition is_send (e : Effect) : bool :=
  match e with Called (TwilioCreate _ _ _) => true | _ => false end.

(** Nothing throws during the turn. *)
Definition all_succeed (env : Env) : Prop := forall c, fails env c = false.

(** The sender is waiting for dates. *)
Definition awaiting (w : World) (from : jsstring) : Prop :=
  step <$> sessions w !! from = Some waiting_dates.

(** The sender has no session. *)
Definition idle (w : World) (from : jsstring) : Prop :=
  sessions w !! from = None.

(** The fields every booking of the webhook has. *)
Definition fixed_fields (r : Reserva) : Prop :=
  roomId r = js "1" /\ personas r = 1%Z /\ nombre r = js "Huésped WhatsApp"
  /\ origen r = js "WhatsApp" /\ estado r = js "confirmada".

(** An effect of a turn for the sender [from]: a booking written is
    [la_reserva] for some range, a query is for room ['1']. *)
Definition effect_ok (from : jsstring) (e : Effect) : Prop :=
  match e with
  | Called (FirestoreAdd r) => exists s e', r = la_reserva from s e'
  | Called (FirestoreGet room) => room = js "1"
  | _ => True
  end.

(** A session entry is only created waiting for dates, by the message
    ['1'] outside that state, and only removed from that state. *)
Definition session_step (req : Request) (w w' : World) : Prop :=
  sessions w' = sessions w
  \/ (sessions w' = <[From req := {| step := waiting_dates |}]> (sessions w)
      /\ toLowerCase (incomingMsg req) = js "1"
      /\ ~ awaiting w (From req))
  \/ (sessions w' = delete (From req) (sessions w)
      /\ awaiting w (From req)).

(** A message that is none of the entries of the menu. *)
Definition free_text (req : Request) : Prop :=
  let msg := toLowerCase (incomingMsg req) in
  msg <> js "hola" /\ msg <> js "menu" /\ msg <> js "1" /\ msg <> js "2"
  /\ msg <> js "3" /\ msg <> js "4".

(** The shape of every turn: what is added to the log and to the
    collection, and what happens to the sessions. *)
Definition turn_shape (req : Request) (w w' : World) : Prop :=
  exists l added,
    log w' = log w ++ l /\ reservas w' = reservas w ++ added /\
    Forall (effect_ok (From req)) l /\
    Forall (fun d => fixed_fields (snd d)) added /\
    session_step req w w'.

(** What holds of a world reached from a collection [docs]: bookings
    written and queries made are those of the single room, and a stored
    document is an initial one or has the fixed fields. *)
Definition single_room (docs : list (jsstring * Reserva)) (w : World)
  : Prop :=
  (forall r, In (Called (FirestoreAdd r)) (log w) -> fixed_fields r)
  /\ (forall room, In (Called (FirestoreGet room)) (log w) -> room = js "1")
  /\ (forall d, In d (reservas w) -> In d docs \/ fixed_fields (snd d)).

End Spec.
Export Spec.

(** ** Concrete turns *)

Module Examples.

Definition U1 : jsstring := js "whatsapp:+51999888777".

Definition now0 : Now := {| nowYear := 2025; nowMonth := 8; nowDate := 15 |}.

(** Every collaborator answers. *)
Definition env_ok : Env := {|
  fails := fun _ => false;
  newId := js "k3Jx9";
  today := now0;
  aiResponse := fun _ => js "Cusco" |}.

(** The FTP server is down. *)
Definition env_ftp_down : Env := {|
  fails := fun c => match c with FtpUpload _ _ => true | _ => false end;
  newId := js "k3Jx9";
  today := now0;
  aiResponse := fun _ => js "Cusco" |}.

Definition w_idle : World := boot [].

Definition w_waiting : World :=
  {| sessions := {[ U1 := {| step := waiting_dates |} ]};
     reservas := []; log := [] |}.

(** Room 1 is taken from 20 to 23 October 2025. *)
Definition w_booked : World :=
  {| sessions := {[ U1 := {| step := waiting_dates |} ]};
     reservas := [(js "a1", la_reserva (js "whatsapp:+34600")
                              (js "2025-10-20") (js "2025-10-23"))];
     log := [] |}.

Definition req_uno : Request := {| Body := Some (js "1"); From := U1 |}.

Definition req_octubre : Request :=
  {| Body := Some (js "20/10/2025 - 23/10/2025"); From := U1 |}.

Definition req_hello : Request := {| Body := Some (js "hello"); From := U1 |}.



End Examples.
Export Examples.

(** ** The FTP uploads, step by step *)

Module Ftp.

(** What is asked of the FTP client. *)
Inductive Op :=
| Access
| EnsureDir (dir : jsstring)
| UploadFrom (filename : jsstring) (content : Buffer)
| Close.

(** A computation on a connection: the operations done so far, and a value
    or the operation that threw. *)
Definition F (A : Type) : Type := list Op -> (A + Op) * list Op.

#[export] Instance F_ret : MRet F := fun A a done => (inl a, done).

#[export] Instance F_bind : MBind F := fun A B f m done =>
  match m done with
  | (inl a, done') => f a done'
  | (inr op, done') => (inr op, done')
  end.

Section Client.

(** The operations the server refuses. *)
Variable failing : Op -> bool.

(** An awaited operation of the client. *)
Definition step (op : Op) : F unit := fun done =>
  if failing op then (inr op, done) else (inl tt, done ++ [op]).

(** [client.close()]: it does not throw. *)
Definition close (done : list Op) : list Op := done ++ [Close].

(** [try { body } finally { client.close() }]. *)
Definition try_finally {A} (body : F A) : F A := fun done =>
  let '(r, done') := body done in (r, close done').

(** [uploadQRtoFTP(qrBuffer, filename)], on a new client. *)
Definition uploadQRtoFTP (qrBuffer : Buffer) (filename : jsstring)
  : (jsstring + Op) * list Op :=
  try_finally
    (step Access;;
     step (EnsureDir (js "/qr"));;
     step (UploadFrom filename qrBuffer);;
     mret (js "https://duomoholding.com/qr/" ++ filename)) [].

(** [uploadPDFtoFTP(pdfBuffer, filename)], on a new client. *)
Definition uploadPDFtoFTP (pdfBuffer : Buffer) (filename : jsstring)
  : (jsstring + Op) * list Op :=
  try_finally
    (step Access;;
     step (EnsureDir (js "/qr"));;
     step (UploadFrom filename pdfBuffer);;
     mret (js "https://duomoholding.com/qr/" ++ filename)) [].

End Client.

(** The three awaited operations of an upload, in the order of the text. *)
Definition upload_ops (filename : jsstring) (content : Buffer) : list Op :=
  [Access; EnsureDir (js "/qr"); UploadFrom filename content].

End Ftp.

(** ** What a turn shows to the outside *)

Module Observe.

Local Open Scope Z_scope.

(** The messages sent during some effects: receiver, text and media. *)
Definition messages (l : list Effect)
  : list (jsstring * jsstring * option jsstring) :=
  flat_map (fun ef =>
    match ef with
    | Called (TwilioCreate to body media) => [(to, body, media)]
    | _ => []
    end) l.

(** The texts put to the chat model. *)
Definition questions (l : list Effect) : list jsstring :=
  flat_map (fun ef =>
    match ef with
    | Called (OpenAIChat content) => [content]
    | _ => []
    end) l.

Definition is_firestore (ef : Effect) : bool :=
  match ef with
  | Called (FirestoreGet _) | Called (FirestoreAdd _) => true
  | _ => false
  end.

(** No two bookings of a list conflict. *)
Fixpoint no_overlaps (docs : list Reserva) : Prop :=
  match docs with
  | [] => True
  | r :: rest =>
      (forall r', In r' rest ->
         ~ conflicts (fechaEntrada r) (fechaSalida r) r')
      /\ no_overlaps rest
  end.

(** The number a string [YYYY-MM-DD] reads as without its hyphens. *)
Definition iso_key (t : Z) : Z :=
  getFullYear t * 10000 + (getMonth t + 1) * 100 + getDate t.

(** The first character of a text is a digit or the minus sign. *)
Definition numeric_head (s : jsstring) : Prop :=
  exists c rest, s = c :: rest /\ (c = 45 \/ 48 <= c <= 57)%N.

End Observe.
Export Observe.

(** ** More concrete turns *)

Module Examples2.

(** The chat model is down. *)
Definition env_ai_down : Env := {|
  fails := fun c => match c with OpenAIChat _ => true | _ => false end;
  newId := js "k3Jx9";
  today := now0;
  aiResponse := fun _ => js "Cusco" |}.

(** Twilio is down. *)
Definition env_twilio_down : Env := {|
  fails := fun c => match c with TwilioCreate _ _ _ => true | _ => false end;
  newId := js "k3Jx9";
  today := now0;
  aiResponse := fun _ => js "Cusco" |}.

(** Twilio refuses the texts that start with the robot. *)
Definition env_robot_refused : Env := {|
  fails := fun c =>
    match c with
    | TwilioCreate _ (55358 :: _)%N _ => true
    | _ => false
    end;
  newId := js "k3Jx9";
  today := now0;
  aiResponse := fun _ => js "Cusco" |}.

Definition req_machu : Request :=
  {| Body := Some (js "Como llego a Machu Picchu?"); From := U1 |}.

(** An engine that reads a text [dd/dd/dddd] month first and gives no date
    when the first field is no month: one of the readings [new Date(text)]
    may have, the language leaving such a text to the engine. *)
Definition engine_mdy (text : jsstring) : option Z :=
  match makeParser text with
  | Some (a, b, y) =>
      if ((1 <=? a) && (a <=? 12) && (1 <=? b) && (b <=? 31))%Z
      then Some (newDate y (a - 1) b)
      else None
  | None => None
  end.

(** A sender whose address is the name ['__proto__']. *)
Definition PROTO : jsstring := js "__proto__".

Definition req_proto_uno : Request :=
  {| Body := Some (js "1"); From := PROTO |}.

Definition req_proto_octubre : Request :=
  {| Body := Some (js "20/10/2025 - 23/10/2025"); From := PROTO |}.

Definition req_proto_hello : Request :=
  {| Body := Some (js "hello"); From := PROTO |}.

(** That sender waits for dates: the object's prototype was replaced. *)
Definition w_proto_waiting : World :=
  {| sessions := {[ PROTO := {| step := waiting_dates |} ]};
     reservas := []; log := [] |}.

(** The same, with room 1 taken from 20 to 23 October 2025. *)
Definition w_proto_booked : World :=
  {| sessions := {[ PROTO := {| step := waiting_dates |} ]};
     reservas := [(js "a1", la_reserva (js "whatsapp:+34600")
                              (js "2025-10-20") (js "2025-10-23"))];
     log := [] |}.


Definition req_invertido : Request :=
  {| Body := Some (js "25/10/2025 - 20/10/2025"); From := U1 |}.

(** Room 1 with two bookings, and the same documents in the other order. *)
Definition w_two : World :=
  {| sessions := ∅;
     reservas := [(js "a1", la_reserva (js "whatsapp:+34600")
                              (js "2025-10-20") (js "2025-10-23"));
                  (js "a2", la_reserva (js "whatsapp:+34600")
                              (js "2025-11-01") (js "2025-11-04"))];
     log := [] |}.

Definition w_two_swapped : World :=
  {| sessions := ∅;
     reservas := [(js "a2", la_reserva (js "whatsapp:+34600")
                              (js "2025-11-01") (js "2025-11-04"));
                  (js "a1", la_reserva (js "whatsapp:+34600")
                              (js "2025-10-20") (js "2025-10-23"))];
     log := [] |}.

End Examples2.
Export Examples2.

(** ** Strings: the order of [<] *)

Section StringOrder.

Lemma str_lt_irrefl (a : jsstring) : str_lt a a = false.
Proof.
  induction a as [|x a IH]; simpl; [reflexivity|].
  rewrite N.ltb_irrefl. exact IH.
Qed.

Lemma str_lt_trans (a b c : jsstring) :
  str_lt a b = true -> str_lt b c = true -> str_lt a c = true.
Proof.
  revert b c. induction a as [|x a IH]; intros [|y b] [|z c]; simpl;
    try congruence.
  destruct (N.ltb_spec x y), (N.ltb_spec y x), (N.ltb_spec y z),
    (N.ltb_spec z y), (N.ltb_spec x z), (N.ltb_spec z x);
    try congruence; try lia.
  apply IH.
Qed.

Lemma str_lt_total (a b : jsstring) :
  str_lt a b = true \/ a = b \/ str_lt b a = true.
Proof.
  revert b. induction a as [|x a IH]; intros [|y b]; simpl; auto.
  destruct (N.ltb_spec x y), (N.ltb_spec y x); auto; try lia.
  assert (x = y) by lia. subst y.
  destruct (IH b) as [H1|[H1|H1]]; auto. subst. auto.
Qed.

Lemma str_le_trans (a b c : jsstring) :
  str_le a b -> str_le b c -> str_le a c.
Proof.
  unfold str_le. intros Hab Hbc.
  destruct (str_lt c a) eqn:Hca; [|reflexivity].
  destruct (str_lt_total b c) as [H|[H|H]].
  - rewrite (str_lt_trans _ _ _ H Hca) in Hab. discriminate.
  - subst. congruence.
  - congruence.
Qed.

End StringOrder.

(** ** Calendar: the day arithmetic inverts on real dates *)

Section Calendar.

Local Open Scope Z_scope.

Lemma DayFromYear_mean y :
  -146097 < 400 * DayFromYear y - 146097 * (y - 1970) < 146097.
Proof. unfold DayFromYear. Z.div_mod_to_equations. lia. Qed.

Lemma YearFromDay_spec d :
  DayFromYear (YearFromDay d) <= d < DayFromYear (YearFromDay d + 1).
Proof.
  unfold YearFromDay.
  set (y0 := 1970 + d * 400 / 146097).
  assert (H0 : 146097 * (y0 - 1970) <= 400 * d
               < 146097 * (y0 - 1970) + 146097)
    by (subst y0; Z.div_mod_to_equations; lia).
  pose proof (DayFromYear_mean (y0 - 1)).
  pose proof (DayFromYear_mean (y0 + 1 + 1)).
  clearbody y0.
  repeat match goal with
         | |- context [?a <=? ?b] => destruct (Z.leb_spec a b)
         end;
    replace (y0 - 1 + 1) with y0 by lia; lia.
Qed.

Lemma DayFromYear_mono a b : a <= b -> DayFromYear a <= DayFromYear b.
Proof. unfold DayFromYear. intros. Z.div_mod_to_equations. lia. Qed.

Lemma DayFromYear_succ y : DayFromYear (y + 1) = DayFromYear y + DaysInYear y.
Proof.
  unfold DayFromYear, DaysInYear, InLeapYear, isLeap.
  repeat match goal with
         | |- context [?a =? ?b] => destruct (Z.eqb_spec a b)
         end; simpl; Z.div_mod_to_equations; lia.
Qed.


Lemma InLeapYear_cases y : InLeapYear y = 0 \/ InLeapYear y = 1.
Proof. unfold InLeapYear. destruct (isLeap y); auto. Qed.



Lemma MakeDay_month_overflow y m d :
  MakeDay y (m + 12) d = MakeDay (y + 1) m d.
Proof.
  unfold MakeDay.
  replace ((m + 12) / 12) with (m / 12 + 1)
    by (Z.div_mod_to_equations; lia).
  replace ((m + 12) mod 12) with (m mod 12)
    by (Z.div_mod_to_equations; lia).
  replace (y + (m / 12 + 1)) with (y + 1 + m / 12) by lia.
  reflexivity.
Qed.

End Calendar.

(** ** dayjs: parsing and formatting real dates *)

Section Formatting.

Local Open Scope Z_scope.

Lemma digit_char_0 : digit_char 0 = 48%N.
Proof. reflexivity. Qed.

Lemma digits_S fuel n acc :
  digits (S fuel) n acc =
  if n / 10 =? 0 then digit_char (n mod 10) :: acc
  else digits fuel (n / 10) (digit_char (n mod 10) :: acc).
Proof. reflexivity. Qed.

(** The fuel of [numToString] covers the digits of a number. *)
Lemma fuel_enough n :
  0 <= n < 10000 ->
  exists f, S (Z.to_nat (Z.log2 n)) = S f /\
            (10 <= n -> (1 <= f)%nat) /\ (100 <= n -> (2 <= f)%nat) /\
            (1000 <= n -> (3 <= f)%nat).
Proof.
  intros Hn. exists (Z.to_nat (Z.log2 n)). split; [reflexivity|].
  split; [|split]; intros H.
  - pose proof (Z.log2_le_mono 8 n ltac:(lia)) as L.
    change (Z.log2 8) with 3 in L. lia.
  - pose proof (Z.log2_le_mono 64 n ltac:(lia)) as L.
    change (Z.log2 64) with 6 in L. lia.
  - pose proof (Z.log2_le_mono 512 n ltac:(lia)) as L.
    change (Z.log2 512) with 9 in L. lia.
Qed.

(** Equality of lists of digit characters, digit by digit. *)
Ltac digits_eq :=
  repeat match goal with
         | |- _ :: _ = _ :: _ => f_equal
         | |- digit_char _ = digit_char _ =>
             f_equal; Z.div_mod_to_equations; lia
         | |- 48%N = digit_char _ =>
             rewrite <- digit_char_0; f_equal; Z.div_mod_to_equations; lia
         end.

(** [String(n)] for a number of up to four digits. *)
Lemma numToString_small n :
  0 <= n < 10000 ->
  numToString n =
  if n <? 10 then [digit_char n]
  else if n <? 100 then [digit_char (n / 10); digit_char (n mod 10)]
  else if n <? 1000
       then [digit_char (n / 100); digit_char (n / 10 mod 10);
             digit_char (n mod 10)]
  else [digit_char (n / 1000); digit_char (n / 100 mod 10);
        digit_char (n / 10 mod 10); digit_char (n mod 10)].
Proof.
  intros Hn. unfold numToString.
  replace (n <? 0) with false by lia.
  destruct (fuel_enough n Hn) as (f & -> & F1 & F2 & F3).
  rewrite digits_S.
  destruct (Z.ltb_spec n 10).
  { replace (n / 10 =? 0) with true by (Z.div_mod_to_equations; lia).
    digits_eq. }
  replace (n / 10 =? 0) with false by (Z.div_mod_to_equations; lia).
  destruct f as [|f]; [lia|]. rewrite digits_S.
  destruct (Z.ltb_spec n 100).
  { replace (n / 10 / 10 =? 0) with true by (Z.div_mod_to_equations; lia).
    digits_eq. }
  replace (n / 10 / 10 =? 0) with false by (Z.div_mod_to_equations; lia).
  destruct f as [|f]; [lia|]. rewrite digits_S.
  destruct (Z.ltb_spec n 1000).
  { replace (n / 10 / 10 / 10 =? 0) with true
      by (Z.div_mod_to_equations; lia).
    digits_eq. }
  replace (n / 10 / 10 / 10 =? 0) with false
    by (Z.div_mod_to_equations; lia).
  destruct f as [|f]; [lia|]. rewrite digits_S.
  replace (n / 10 / 10 / 10 / 10 =? 0) with true
    by (Z.div_mod_to_equations; lia).
  digits_eq.
Qed.

Lemma padStart2 a b :
  0 <= a <= 9 -> 0 <= b <= 9 ->
  padStart 2 (numToString (10 * a + b)) = [digit_char a; digit_char b].
Proof.
  intros Ha Hb. rewrite numToString_small by lia.
  destruct (Z.ltb_spec (10 * a + b) 10).
  - cbn [padStart length Nat.sub repeat app]. digits_eq.
  - replace (10 * a + b <? 100) with true by lia.
    cbn [padStart length Nat.sub repeat app]. digits_eq.
Qed.

Lemma padStart4 a b c d :
  0 <= a <= 9 -> 0 <= b <= 9 -> 0 <= c <= 9 -> 0 <= d <= 9 ->
  padStart 4 (numToString (1000 * a + 100 * b + 10 * c + d))
  = [digit_char a; digit_char b; digit_char c; digit_char d].
Proof.
  intros Ha Hb Hc Hd. rewrite numToString_small by lia.
  repeat match goal with
         | |- context [?x <? ?y] => destruct (Z.ltb_spec x y)
         end;
    cbn [padStart length Nat.sub repeat app]; digits_eq.
Qed.


Lemma is_digit_digit c : is_digit c = true -> exists k, digit c = Some k.
Proof. unfold digit. intros ->. eauto. Qed.

(** A group of the pattern always has numeric fields. *)
Lemma date_at_makeParser s g rest :
  date_at s = Some (g, rest) ->
  length g = 10%nat /\ s = g ++ rest /\
  exists d m y, makeParser g = Some (d, m, y) /\ 0 <= d /\ 0 <= m /\ 0 <= y.
Proof.
  unfold date_at.
  destruct s as [|a [|b [|s1 [|c [|d [|s2 [|e [|f [|g' [|h r]]]]]]]]]];
    try discriminate.
  destruct (is_digit a) eqn:Ea; [|discriminate].
  destruct (is_digit b) eqn:Eb; [|discriminate].
  destruct (s1 =? 47)%N eqn:E1; [|discriminate].
  destruct (is_digit c) eqn:Ec; [|discriminate].
  destruct (is_digit d) eqn:Ed; [|discriminate].
  destruct (s2 =? 47)%N eqn:E2; [|discriminate].
  destruct (is_digit e) eqn:Ee; [|discriminate].
  destruct (is_digit f) eqn:Ef; [|discriminate].
  destruct (is_digit g') eqn:Eg; [|discriminate].
  destruct (is_digit h) eqn:Eh; [|discriminate].
  simpl. intros [= <- <-]. split; [reflexivity|]. split; [reflexivity|].
  unfold makeParser, digit. rewrite Ea, Eb, Ec, Ed, Ee, Ef, Eg, Eh. simpl.
  do 3 eexists. split; [reflexivity|].
  unfold is_digit in *.
  repeat match goal with
         | H : (_ && _)%bool = true |- _ => apply andb_true_iff in H as [? ?]
         | H : (_ <=? _)%N = true |- _ => apply N.leb_le in H
         end.
  lia.
Qed.


End Formatting.

(** ** The pattern: where it matches *)

Section PatternFacts.

Lemma is_digit_not_space c : is_digit c = true -> is_space c = false.
Proof.
  unfold is_digit, is_space. intros H.
  apply andb_true_iff in H as [H1 H2].
  apply N.leb_le in H1, H2.
  repeat match goal with
         | |- context [(?a <=? ?b)%N] => destruct (N.leb_spec a b); try lia
         | |- context [(?a =? ?b)%N] => destruct (N.eqb_spec a b); try lia
         end; reflexivity.
Qed.

Lemma trimStart_spaces ws s :
  Forall (fun c => is_space c = true) ws ->
  trimStart (ws ++ s) = trimStart s.
Proof.
  induction 1 as [|c ws Hc _ IH]; [reflexivity|].
  simpl. rewrite Hc. exact IH.
Qed.

Lemma date_at_app g rest :
  is_group g -> date_at (g ++ rest) = Some (g, rest).
Proof.
  unfold is_group, date_at.
  destruct g as [|a [|b [|s1 [|c [|d [|s2 [|e [|f [|g' [|h r]]]]]]]]]];
    try discriminate.
  simpl.
  match goal with |- context [if ?c then _ else _] => destruct c end;
    [|discriminate].
  intros H; inversion H; subst; reflexivity.
Qed.

Lemma is_group_head g :
  is_group g -> exists c g', g = c :: g' /\ is_digit c = true.
Proof.
  unfold is_group, date_at.
  destruct g as [|a [|b [|s1 [|c [|d [|s2 [|e [|f [|g' [|h r]]]]]]]]]];
    try discriminate.
  destruct (is_digit a) eqn:Ea; [|discriminate]. eauto.
Qed.

Lemma match_at_embedded g1 ws1 ws2 g2 post :
  is_group g1 -> is_group g2 ->
  Forall (fun c => is_space c = true) ws1 ->
  Forall (fun c => is_space c = true) ws2 ->
  match_at (g1 ++ ws1 ++ [45%N] ++ ws2 ++ g2 ++ post) = Some (g1, g2).
Proof.
  intros H1 H2 Hw1 Hw2. unfold match_at.
  rewrite (date_at_app _ _ H1). cbn [mbind option_bind].
  rewrite trimStart_spaces by assumption. cbn [app trimStart].
  change (is_space 45) with false. cbv iota.
  rewrite trimStart_spaces by assumption.
  destruct (is_group_head _ H2) as (c & g' & -> & Hc).
  cbn [app trimStart]. rewrite (is_digit_not_space _ Hc).
  change (c :: g' ++ post) with ((c :: g') ++ post).
  rewrite (date_at_app _ _ H2). reflexivity.
Qed.



Lemma regex_match_head s m : match_at s = Some m -> regex_match s = Some m.
Proof. intros H. destruct s; cbn [regex_match]; rewrite H; reflexivity. Qed.

(** The two groups of a match are texts [dd/dd/dddd]. *)
Lemma regex_match_is_group s g1 g2 :
  regex_match s = Some (g1, g2) -> is_group g1 /\ is_group g2.
Proof.
  assert (Hd : forall x g r, date_at x = Some (g, r) -> is_group g).
  { intros x g r. unfold is_group, date_at.
    destruct x as [|a [|b [|s1 [|c [|d [|s2 [|e [|f [|g' [|h r']]]]]]]]]];
      try discriminate.
    match goal with |- context [if ?c then _ else _] => destruct c eqn:E end;
      [|discriminate].
    intros [= <- <-]. rewrite E. reflexivity. }
  assert (Hm : forall x, match_at x = Some (g1, g2) ->
                         is_group g1 /\ is_group g2).
  { intros x. unfold match_at.
    destruct (date_at x) as [[g r1]|] eqn:E1; [|discriminate].
    cbn [mbind option_bind].
    destruct (trimStart r1) as [|c r2]; [discriminate|].
    destruct (N.eqb_spec c 45) as [->|Hc].
    2:{ destruct c as [|p]; try discriminate.
        do 6 (destruct p; try discriminate). congruence. }
    destruct (date_at (trimStart r2)) as [[g' r3]|] eqn:E2; [|discriminate].
    cbn [mbind option_bind]. intros [= <- <-]. eauto. }
  induction s as [|c s IH]; cbn [regex_match].
  - destruct (match_at []) eqn:E; [|discriminate].
    intros [= ->]. eauto.
  - destruct (match_at (c :: s)) eqn:E; [intros [= ->]; eauto|exact IH].
Qed.

Lemma is_group_fields g :
  is_group g ->
  exists d m y, makeParser g = Some (d, m, y) /\ (0 <= d /\ 0 <= m /\ 0 <= y)%Z.
Proof.
  intros H. destruct (date_at_makeParser _ _ _ H) as (_ & _ & d & m & y & ?).
  exists d, m, y. tauto.
Qed.

End PatternFacts.

(** ** Running the handler *)

Section Running.

Variable env : Env.

Lemma bind_run {A B} (m : M A) (f : A -> M B) w :
  (m ≫= f) w =
  match m w with
  | (Ok a, w') => f a w'
  | (Throw c, w') => (Throw c, w')
  end.
Proof. reflexivity. Qed.

Lemma call_run c w :
  call env c w =
  if fails env c then (Throw c, w)
  else (Ok tt, {| sessions := sessions w; reservas := reservas w;
                  log := log w ++ [Called c] |}).
Proof. reflexivity. Qed.

Lemma ret_run {A} (a : A) (w : World) : (mret a : M A) w = (Ok a, w).
Proof. reflexivity. Qed.

End Running.

(** One step of symbolic execution of the monadic code. *)
Ltac run env :=
  repeat (rewrite ?bind_run, ?(call_run env), ?ret_run;
          cbv beta iota; cbn [sessions reservas log map]).

(** Case analysis on the next call: it throws or it succeeds. *)
Ltac split_call env :=
  match goal with
  | |- context [fails env ?c] =>
      let E := fresh "E" in
      destruct (fails env c) eqn:E;
      repeat match goal with
             | |- context [fails env ?c'] =>
                 progress (change (fails env c') with (fails env c));
                 rewrite ?E
             end
  end.

Section Pipeline.

Variable env : Env.


(** The booking branch makes the calls of [pipeline] up to the first that
    throws, and keeps the booking once it is written. *)
Lemma confirmar_run from s e w :
  confirmar env from s e (js "1") w =
  let '(done, f) := until_failure (fails env) (pipeline (newId env) from s e) in
  (match f with None => Ok tt | Some c => Throw c end,
   {| sessions := sessions w;
      reservas := reservas w ++
        match done with
        | [] => []
        | _ :: _ => [(newId env, la_reserva from s e)]
        end;
      log := log w ++ map Called done |}).
Proof.
  unfold confirmar, pipeline, until_failure, add, toBuffer, uploadQRtoFTP,
    generarPDFReserva, uploadPDFtoFTP, sendMessage, el_pdf, stored_at,
    reserva_confirmada.
  let u := eval vm_compute in (js "https://duomoholding.com/qr/") in
  change (js "https://duomoholding.com/qr/") with u.
  cbn [app].
  run env. split_call env; run env.
  { destruct w; cbn [sessions reservas log map]. rewrite !app_nil_r.
    reflexivity. }
  do 5 (split_call env; run env; [rewrite <- ?app_assoc; reflexivity|]).
  rewrite <- !app_assoc. reflexivity.
Qed.

End Pipeline.

Section RunningTheHandler.

Variable env : Env.

Lemma isRangeAvailable_run room s e w :
  isRangeAvailable env room s e w =
  if fails env (FirestoreGet room) then (Throw (FirestoreGet room), w)
  else (Ok (scan (bookings_of room w) s e),
        {| sessions := sessions w; reservas := reservas w;
           log := log w ++ [Called (FirestoreGet room)] |}).
Proof.
  unfold isRangeAvailable, where_roomId, bookings_of. run env.
  destruct (fails env (FirestoreGet room)); reflexivity.
Qed.

Lemma scan_true_iff docs s e :
  scan docs s e = true <-> forall r, In r docs -> ~ conflicts s e r.
Proof.
  unfold conflicts. induction docs as [|r docs IH]; simpl.
  - split; [intros _ r []|reflexivity].
  - destruct (str_lt e (fechaEntrada r)) eqn:E1;
      destruct (str_gt s (fechaSalida r)) eqn:E2; simpl;
      try (rewrite IH; split;
           [intros H r' [<-|Hr]; [rewrite ?E1, ?E2; tauto|auto]
           |intros H r' Hr; auto]).
    split; [discriminate|].
    intros H. exfalso. apply (H r); [auto|]. rewrite E1, E2.
    intros [?|?]; discriminate.
Qed.

Lemma in_bookings_of room w r :
  In r (bookings_of room w) <->
  exists id, In (id, r) (reservas w) /\ roomId r = room.
Proof.
  unfold bookings_of. rewrite in_map_iff. split.
  - intros ([id r'] & <- & H). apply list_elem_of_In in H.
    apply list_elem_of_filter in H as [H1 H2].
    exists id. split; [apply list_elem_of_In; exact H2|exact H1].
  - intros (id & H & Hr). exists (id, r). split; [reflexivity|].
    apply list_elem_of_In, list_elem_of_filter. split; [exact Hr|].
    apply list_elem_of_In. exact H.
Qed.

(** After the dates are read: what the handler does, by cases on the calls
    that throw and on the availability of the room. *)
Lemma reservar_run from s e w :
  reservar env from s e w =
  let get := FirestoreGet (js "1") in
  if fails env get then (Throw get, w)
  else if scan (bookings_of (js "1") w) s e then
    let '(done, f) :=
      until_failure (fails env) (pipeline (newId env) from s e) in
    let booked :=
      match done with
      | [] => []
      | _ :: _ => [(newId env, la_reserva from s e)]
      end in
    match f with
    | Some c =>
        (Throw c,
         {| sessions := sessions w; reservas := reservas w ++ booked;
            log := log w ++ [Called get] ++ map Called done |})
    | None =>
        (Ok (Status 200),
         {| sessions := delete_own from (sessions w);
            reservas := reservas w ++ booked;
            log := log w ++ [Called get] ++ map Called done
                   ++ [SessionDelete from] |})
    end
  else
    let decline := TwilioCreate from (no_disponible s e) None in
    if fails env decline
    then (Throw decline,
          {| sessions := sessions w; reservas := reservas w;
             log := log w ++ [Called get] |})
    else (Ok (Status 200),
          {| sessions := delete_own from (sessions w); reservas := reservas w;
             log := log w ++ [Called get; Called decline;
                              SessionDelete from] |}).
Proof.
  unfold reservar. rewrite bind_run, isRangeAvailable_run.
  cbv zeta. destruct (fails env (FirestoreGet (js "1"))); [reflexivity|].
  destruct (scan (bookings_of (js "1") w) s e); cbn [negb].
  - rewrite !bind_run, confirmar_run.
    destruct (until_failure _ _) as [done [c|]];
      cbn [sessions reservas log]; [rewrite <- app_assoc; reflexivity|].
    unfold sessions_delete, emit. rewrite bind_run.
    cbn [sessions reservas log]. rewrite ret_run.
    rewrite <- !app_assoc. reflexivity.
  - rewrite !bind_run. unfold sendMessage, no_disponible.
    rewrite call_run.
    destruct (fails env (TwilioCreate _ _ _)); [reflexivity|].
    unfold sessions_delete, emit. rewrite bind_run.
    cbn [sessions reservas log]. rewrite ret_run.
    rewrite <- !app_assoc. reflexivity.
Qed.

(** The state "waiting for dates", in terms of the parser. *)
Lemma esperando_fechas_run from text w :
  esperando_fechas env from text w =
  match parse_range (today env) text with
  | Some (s, e) => reservar env from s e w
  | None =>
      let c := TwilioCreate from FORMATO_INVALIDO None in
      if fails env c then (Throw c, w)
      else (Ok (Status 200),
            {| sessions := sessions w; reservas := reservas w;
               log := log w ++ [Called c] |})
  end.
Proof.
  unfold esperando_fechas, parse_range.
  destruct (regex_match text) as [[m1 m2]|]; [reflexivity|].
  rewrite bind_run. unfold sendMessage, FORMATO_INVALIDO. rewrite call_run.
  cbv zeta. destruct (fails env _); reflexivity.
Qed.

Lemma whatsapp_awaiting req w :
  awaiting w (From req) ->
  whatsapp env req w = esperando_fechas env (From req) (incomingMsg req) w.
Proof.
  unfold awaiting, whatsapp, sessions_get. intros H. rewrite bind_run.
  rewrite bool_decide_eq_true_2 by exact H. reflexivity.
Qed.

End RunningTheHandler.

(** ** One turn, whatever the message *)

Section TheObject.

Lemma delete_own_proto o : delete_own (js "__proto__") o = o.
Proof. unfold delete_own. rewrite bool_decide_eq_true_2; reflexivity. Qed.

Lemma delete_own_other name o :
  name <> js "__proto__" -> delete_own name o = delete name o.
Proof.
  intros H. unfold delete_own. rewrite bool_decide_eq_false_2; [reflexivity|].
  exact H.
Qed.

Lemma delete_own_cases name o :
  (name = js "__proto__" /\ delete_own name o = o) \/
  (name <> js "__proto__" /\ delete_own name o = delete name o).
Proof.
  unfold delete_own. case_bool_decide as H; [left|right]; split; auto.
Qed.

End TheObject.

Section OneTurn.

Variable env : Env.

Lemma until_failure_incl failing cs done f :
  until_failure failing cs = (done, f) -> forall c, In c done -> In c cs.
Proof.
  revert done f. induction cs as [|c cs IH]; simpl; intros done f.
  - intros [= <- _] ? [].
  - destruct (failing c); [intros [= <- _] ? []|].
    destruct (until_failure failing cs) as [d f'].
    intros [= <- _] c' [<-|H]; [auto|right; eapply IH; eauto].
Qed.

Lemma until_failure_all failing cs :
  Forall (fun c => failing c = false) cs ->
  until_failure failing cs = (cs, None).
Proof.
  induction 1 as [|c cs Hc _ IH]; [reflexivity|].
  simpl. rewrite Hc, IH. reflexivity.
Qed.

Lemma pipeline_effect_ok id from s e c :
  In c (pipeline id from s e) -> effect_ok from (Called c).
Proof.
  unfold pipeline. cbn [In].
  intros [<-|[<-|[<-|[<-|[<-|[<-|[]]]]]]]; cbn; eauto.
Qed.

Lemma la_reserva_fixed from s e : fixed_fields (la_reserva from s e).
Proof. repeat split. Qed.

Lemma turn_shape_same req w r l :
  Forall (effect_ok (From req)) l ->
  turn_shape req w
    (snd (r : Res Response,
          {| sessions := sessions w; reservas := reservas w;
             log := log w ++ l |})).
Proof.
  intros H. exists l, []. cbn [snd sessions reservas log].
  rewrite app_nil_r. repeat split; auto. left. reflexivity.
Qed.

Lemma turn_shape_refl req w r :
  turn_shape req w (snd (r : Res Response, w)).
Proof.
  exists [], []. cbn [snd]. rewrite !app_nil_r.
  repeat split; auto. left. reflexivity.
Qed.

Lemma reservar_shape req w s e :
  awaiting w (From req) ->
  turn_shape req w (snd (reservar env (From req) s e w)).
Proof.
  intros Ha. rewrite reservar_run. cbv zeta.
  destruct (fails env (FirestoreGet _)); [apply turn_shape_refl|].
  destruct (scan _ s e).
  - destruct (until_failure _ _) as [done f] eqn:Eu.
    assert (Hd : Forall (effect_ok (From req)) (map Called done)).
    { apply List.Forall_forall. intros x Hx%in_map_iff.
      destruct Hx as (c & <- & Hc).
      eapply pipeline_effect_ok, until_failure_incl; eauto. }
    assert (Hb : Forall (fun d : jsstring * Reserva => fixed_fields (snd d))
                   match done with
                   | [] => []
                   | _ :: _ => [(newId env, la_reserva (From req) s e)]
                   end).
    { destruct done; repeat constructor. }
    destruct f as [c|]; eexists _, _; cbn [snd sessions reservas log];
      (split; [reflexivity|]); (split; [reflexivity|]).
    + repeat split; auto.
      * apply Forall_app. split; [repeat constructor|exact Hd].
      * left. reflexivity.
    + repeat split; auto.
      * apply Forall_app. split; [repeat constructor|].
        apply Forall_app. split; [exact Hd|repeat constructor].
      * unfold session_step. cbn [sessions].
        destruct (delete_own_cases (From req) (sessions w)) as [[_ E]|[_ E]];
          rewrite E; [left; reflexivity|right; right; auto].
  - cbv zeta. destruct (fails env (TwilioCreate _ _ _)).
    + apply turn_shape_same. repeat constructor.
    + exists [Called (FirestoreGet (js "1"));
              Called (TwilioCreate (From req) (no_disponible s e) None);
              SessionDelete (From req)], [].
      cbn [snd sessions reservas log]. rewrite app_nil_r.
      repeat split; auto; [repeat constructor|].
      unfold session_step. cbn [sessions].
      destruct (delete_own_cases (From req) (sessions w)) as [[_ E]|[_ E]];
        rewrite E; [left; reflexivity|right; right; auto].
Qed.

Lemma whatsapp_awaiting_shape req w :
  awaiting w (From req) -> turn_shape req w (snd (whatsapp env req w)).
Proof.
  intros Ha. rewrite whatsapp_awaiting, esperando_fechas_run by exact Ha.
  destruct (parse_range _ _) as [[s e]|].
  - apply reservar_shape, Ha.
  - cbv zeta. destruct (fails env _).
    + apply turn_shape_refl.
    + apply turn_shape_same. repeat constructor.
Qed.

Lemma sendMessage_shape req w body :
  turn_shape req w
    (snd ((sendMessage env (From req) body None;; mret (Status 200)) w)).
Proof.
  unfold sendMessage. run env.
  destruct (fails env _); run env.
  - apply turn_shape_refl.
  - apply turn_shape_same. repeat constructor.
Qed.

Lemma uno_shape req w body :
  ~ awaiting w (From req) ->
  toLowerCase (incomingMsg req) = js "1" ->
  turn_shape req w
    (snd ((sessions_set (From req) {| step := waiting_dates |};;
           sendMessage env (From req) body None;;
           mret (Status 200)) w)).
Proof.
  intros Ha E1. unfold sendMessage, sessions_set, emit. run env.
  destruct (fails env _); run env.
  - exists [SessionSet (From req)], []. cbn [snd sessions reservas log].
    rewrite app_nil_r. repeat split; auto; [repeat constructor|].
    right. left. auto.
  - eexists [SessionSet (From req); _], []. cbn [snd sessions reservas log].
    rewrite app_nil_r, <- app_assoc. repeat split; auto;
      [repeat constructor|]. right. left. auto.
Qed.

Lemma whatsapp_idle_shape req w :
  ~ awaiting w (From req) -> turn_shape req w (snd (whatsapp env req w)).
Proof.
  intros Ha. unfold whatsapp, sessions_get. rewrite bind_run.
  rewrite bool_decide_eq_false_2 by exact Ha.
  destruct (str_eq _ (js "hola") || str_eq _ (js "menu"));
    [apply sendMessage_shape|].
  destruct (str_eq _ (js "1")) eqn:E1.
  { apply bool_decide_eq_true in E1. apply uno_shape; assumption. }
  destruct (str_eq _ (js "2")); [apply sendMessage_shape|].
  destruct (str_eq _ (js "3")); [apply sendMessage_shape|].
  destruct (str_eq _ (js "4")); [apply sendMessage_shape|].
  unfold fallback, try_catch, sendMessage. run env.
  destruct (fails env (OpenAIChat _)); run env.
  - destruct (fails env _); run env.
    + apply turn_shape_refl.
    + apply turn_shape_same. repeat constructor.
  - destruct (fails env (TwilioCreate _ (_ ++ _) _)); run env.
    + destruct (fails env _); run env.
      * apply turn_shape_same. repeat constructor.
      * rewrite <- app_assoc. apply turn_shape_same. repeat constructor.
    + rewrite <- app_assoc. apply turn_shape_same. repeat constructor.
Qed.

Lemma whatsapp_shape req w : turn_shape req w (snd (whatsapp env req w)).
Proof.
  destruct (decide (step <$> sessions w !! From req = Some waiting_dates)).
  - apply whatsapp_awaiting_shape; assumption.
  - apply whatsapp_idle_shape; assumption.
Qed.

End OneTurn.

(** * The claims *)

(** ** The overlap check *)

(** C1, as the code has it. With the query answered, [isRangeAvailable]
    returns [true] exactly when no booking of the room conflicts with the
    candidate range, a conflict being "not (e < s' or s > e')" on the
    strings; a range that touches a booking's boundary is refused when the
    range and the booking both run from a date to a date that is not
    earlier (nothing in the handler puts the dates in order), and a room
    without bookings is available. *)
Theorem isRangeAvailable_overlap env room s e w :
  fails env (FirestoreGet room) = false ->
  exists available,
    fst (isRangeAvailable env room s e w) = Ok available /\
    (available = true <->
     forall id r, In (id, r) (reservas w) -> roomId r = room ->
                  ~ conflicts s e r) /\
    (forall id r, In (id, r) (reservas w) -> roomId r = room ->
       str_le s e -> str_le (fechaEntrada r) (fechaSalida r) ->
       e = fechaEntrada r \/ s = fechaSalida r ->
       available = false) /\
    ((forall id r, In (id, r) (reservas w) -> roomId r <> room) ->
     available = true).
Proof.
  intros Hget. exists (scan (bookings_of room w) s e).
  rewrite isRangeAvailable_run, Hget. split; [reflexivity|].
  assert (Hiff : scan (bookings_of room w) s e = true <->
                 forall id r, In (id, r) (reservas w) -> roomId r = room ->
                              ~ conflicts s e r).
  { rewrite scan_true_iff. split.
    - intros H id r Hin Hr. apply H, in_bookings_of. eauto.
    - intros H r (id & Hin & Hr)%in_bookings_of. eauto. }
  split; [exact Hiff|]. split.
  - intros id r Hin Hr Hse Hr' Htouch.
    destruct (scan _ s e) eqn:Es; [|reflexivity]. exfalso.
    apply (proj1 Hiff eq_refl id r Hin Hr). unfold conflicts, str_gt.
    destruct Htouch as [->| ->].
    + rewrite str_lt_irrefl.
      pose proof (str_le_trans _ _ _ Hse Hr') as H. unfold str_le in H.
      rewrite H. intros [?|?]; discriminate.
    + rewrite str_lt_irrefl.
      pose proof (str_le_trans _ _ _ Hr' Hse) as H. unfold str_le in H.
      rewrite H. intros [?|?]; discriminate.
  - intros H. apply Hiff. intros id r Hin Hr. destruct (H id r Hin Hr).
Qed.

Lemma isRangeAvailable_overlap_witness :
  fails env_ok (FirestoreGet (js "1")) = false /\
  exists available,
    fst (isRangeAvailable env_ok (js "1") (js "2025-10-23")
           (js "2025-10-25") w_booked) = Ok available /\
    (available = true <->
     forall id r, In (id, r) (reservas w_booked) -> roomId r = js "1" ->
                  ~ conflicts (js "2025-10-23") (js "2025-10-25") r) /\
    (forall id r, In (id, r) (reservas w_booked) -> roomId r = js "1" ->
       str_le (js "2025-10-23") (js "2025-10-25") ->
       str_le (fechaEntrada r) (fechaSalida r) ->
       js "2025-10-25" = fechaEntrada r \/ js "2025-10-23" = fechaSalida r ->
       available = false) /\
    ((forall id r, In (id, r) (reservas w_booked) -> roomId r <> js "1") ->
     available = true).
Proof.
  assert (H : fails env_ok (FirestoreGet (js "1")) = false) by reflexivity.
  exact (conj H (isRangeAvailable_overlap env_ok (js "1") (js "2025-10-23")
                   (js "2025-10-25") w_booked H)).
Defined.

(** C1, where the claim fails. The handler does not put the two dates in
    order: the text ['25/10/2025 - 20/10/2025'] is read as the range from
    2025-10-25 to 2025-10-20. Its end is the first day of the booking from
    2025-10-20 to 2025-10-23, and it starts after that booking ends, so no
    conflict is found and the range is available. *)
Lemma reversed_touching_range_is_free :
  parse_range now0 (incomingMsg req_invertido)
  = Some (js "2025-10-25", js "2025-10-20") /\
  In (js "a1", la_reserva (js "whatsapp:+34600") (js "2025-10-20")
                 (js "2025-10-23")) (reservas w_booked) /\
  js "2025-10-20"
  = fechaEntrada (la_reserva (js "whatsapp:+34600") (js "2025-10-20")
                    (js "2025-10-23")) /\
  fst (isRangeAvailable env_ok (js "1") (js "2025-10-25") (js "2025-10-20")
         w_booked) = Ok true /\
  ~ (forall s e id r,
       In (id, r) (reservas w_booked) -> roomId r = js "1" ->
       e = fechaEntrada r \/ s = fechaSalida r ->
       fst (isRangeAvailable env_ok (js "1") s e w_booked) = Ok false).
Proof.
  assert (H : fst (isRangeAvailable env_ok (js "1") (js "2025-10-25")
                     (js "2025-10-20") w_booked) = Ok true)
    by (vm_compute; reflexivity).
  split; [vm_compute; reflexivity|].
  split; [left; reflexivity|].
  split; [reflexivity|].
  split; [exact H|].
  intros C.
  specialize (C (js "2025-10-25") (js "2025-10-20") (js "a1")
                (la_reserva (js "whatsapp:+34600") (js "2025-10-20")
                   (js "2025-10-23"))
                (or_introl eq_refl) eq_refl (or_introl eq_refl)).
  rewrite H in C. discriminate C.
Qed.

(** ** The state machine *)

Section Claims.

Variable env : Env.

(** C6. Waiting for dates, a text without the pattern leaves the sessions
    (and the bookings) as they were, so the sender is still waiting; the
    reply is the format error, and the request ends with status 200. *)
Theorem formato_invalido_keeps_session req w :
  awaiting w (From req) ->
  regex_match (incomingMsg req) = None ->
  let reply := TwilioCreate (From req) FORMATO_INVALIDO None in
  let w' := snd (whatsapp env req w) in
  sessions w' = sessions w /\ awaiting w' (From req) /\
  reservas w' = reservas w /\
  (fails env reply = false ->
   whatsapp env req w =
   (Ok (Status 200),
    {| sessions := sessions w; reservas := reservas w;
       log := log w ++ [Called reply] |})).
Proof.
  intros Ha Hm. cbv zeta.
  rewrite whatsapp_awaiting, esperando_fechas_run by exact Ha.
  unfold parse_range. rewrite Hm. cbv zeta.
  destruct (fails env _); cbn [snd sessions reservas];
    repeat split; auto; discriminate.
Qed.

(** C5. When the availability check answers [false], nothing is booked and
    no artifact is made: the turn adds no booking to the collection and
    only the query, the decline and the end of the session to the log; once
    the decline is sent, [delete sessions[from]] runs. It removes the entry
    of every sender but ['__proto__'], who stays in the waiting state. *)
Theorem no_disponible_closes_session req w s e :
  awaiting w (From req) ->
  parse_range (today env) (incomingMsg req) = Some (s, e) ->
  fst (isRangeAvailable env (js "1") s e w) = Ok false ->
  let from := From req in
  let decline := TwilioCreate from (no_disponible s e) None in
  let w' := snd (whatsapp env req w) in
  reservas w' = reservas w /\
  (exists l, log w' = log w ++ l /\
             forallb (fun ef => negb (is_add ef || is_artifact ef)) l = true) /\
  (fails env decline = false ->
   whatsapp env req w =
   (Ok (Status 200),
    {| sessions := delete_own from (sessions w); reservas := reservas w;
       log := log w ++ [Called (FirestoreGet (js "1")); Called decline;
                        SessionDelete from] |})
   /\ (from <> js "__proto__" -> idle w' from)
   /\ (from = js "__proto__" -> awaiting w' from)).
Proof.
  intros Ha Hp Hav. cbv zeta.
  rewrite whatsapp_awaiting, esperando_fechas_run by exact Ha.
  rewrite Hp, reservar_run. rewrite isRangeAvailable_run in Hav.
  cbv zeta. destruct (fails env (FirestoreGet _)); [discriminate|].
  cbn [fst] in Hav. injection Hav as ->.
  destruct (fails env (TwilioCreate _ _ _)); cbn [snd sessions reservas log].
  - split; [reflexivity|]. split; [|discriminate].
    eexists. split; reflexivity.
  - split; [reflexivity|]. split.
    + eexists. split; reflexivity.
    + intros _. split; [reflexivity|]. split.
      * intros Hn. unfold idle. cbn [sessions].
        rewrite (delete_own_other _ _ Hn). apply lookup_delete_eq.
      * intros Hp'. unfold awaiting in *. cbn [sessions].
        rewrite Hp' in Ha |- *. rewrite delete_own_proto. exact Ha.
Qed.

(** C4. A successful booking: with the room free and no call of the
    pipeline throwing, the turn makes, after the availability query,
    exactly these effects in this order: the booking is written (its id
    comes back), the QR code is encoded, the image is stored as
    [reserva-<id>.png], the PDF is rendered, it is stored as
    [reserva-<id>.pdf], the confirmation is sent with the address of the
    stored PDF, and [delete sessions[from]] runs; the request ends with
    status 200. The deletion removes the entry of every sender but
    ['__proto__'], who stays in the waiting state. *)
Theorem booking_pipeline_order req w s e :
  awaiting w (From req) ->
  parse_range (today env) (incomingMsg req) = Some (s, e) ->
  fst (isRangeAvailable env (js "1") s e w) = Ok true ->
  Forall (fun c => fails env c = false)
    (pipeline (newId env) (From req) s e) ->
  let from := From req in
  let id := newId env in
  let png := js "reserva-" ++ id ++ js ".png" in
  let pdf := js "reserva-" ++ id ++ js ".pdf" in
  let qr := QRImage (qr_data id s e) in
  let w' := snd (whatsapp env req w) in
  whatsapp env req w =
  (Ok (Status 200),
   {| sessions := delete_own from (sessions w);
      reservas := reservas w ++ [(id, la_reserva from s e)];
      log := log w ++
        [ Called (FirestoreGet (js "1"));
          Called (FirestoreAdd (la_reserva from s e));
          Called (QRCodeToBuffer (qr_data id s e));
          Called (FtpUpload png qr);
          Called (PdfKit {| pdf_id := id;
                            pdf_nombre := js "Huésped WhatsApp";
                            pdf_fechaEntrada := s;
                            pdf_fechaSalida := e;
                            pdf_personas := 1 |} qr);
          Called (FtpUpload pdf (el_pdf id s e));
          Called (TwilioCreate from (reserva_confirmada id s e)
                    (Some (stored_at pdf)));
          SessionDelete from ] |})
  /\ (from <> js "__proto__" -> idle w' from)
  /\ (from = js "__proto__" -> awaiting w' from).
Proof.
  intros Ha Hp Hav Hok. cbv zeta.
  rewrite whatsapp_awaiting, esperando_fechas_run by exact Ha.
  rewrite Hp, reservar_run. rewrite isRangeAvailable_run in Hav.
  cbv zeta. destruct (fails env (FirestoreGet _)); [discriminate|].
  cbn [fst] in Hav. injection Hav as ->.
  rewrite (until_failure_all _ _ Hok). cbn [snd].
  split; [reflexivity|]. split.
  - intros Hn. unfold idle. cbn [sessions].
    rewrite (delete_own_other _ _ Hn). apply lookup_delete_eq.
  - intros Hp'. unfold awaiting in *. cbn [sessions].
    rewrite Hp' in Ha |- *. rewrite delete_own_proto. exact Ha.
Qed.

(** C2, what the code does. When a call of the pipeline throws, nothing
    catches it: the handler's promise is rejected with that failure and no
    response is written, no message at all is sent to the guest, the
    session entry stays, and the booking, once written, is kept. *)
Theorem pipeline_failure_unhandled req w s e done c :
  awaiting w (From req) ->
  parse_range (today env) (incomingMsg req) = Some (s, e) ->
  fst (isRangeAvailable env (js "1") s e w) = Ok true ->
  until_failure (fails env) (pipeline (newId env) (From req) s e)
  = (done, Some c) ->
  let from := From req in
  let w' := snd (whatsapp env req w) in
  whatsapp env req w =
  (Throw c,
   {| sessions := sessions w;
      reservas := reservas w ++
        match done with
        | [] => []
        | _ :: _ => [(newId env, la_reserva from s e)]
        end;
      log := log w ++ [Called (FirestoreGet (js "1"))] ++ map Called done |})
  /\ awaiting w' from
  /\ forallb (fun ef => negb (is_send ef))
       ([Called (FirestoreGet (js "1"))] ++ map Called done) = true.
Proof.
  intros Ha Hp Hav Hu. cbv zeta.
  rewrite whatsapp_awaiting, esperando_fechas_run by exact Ha.
  rewrite Hp, reservar_run. rewrite isRangeAvailable_run in Hav.
  cbv zeta. destruct (fails env (FirestoreGet _)); [discriminate|].
  cbn [fst] in Hav. injection Hav as ->.
  rewrite Hu. split; [reflexivity|]. split; [exact Ha|].
  revert Hu. unfold pipeline, until_failure.
  repeat match goal with
         | |- context [fails env ?x] => destruct (fails env x)
         end;
    intros [= <- _]; try reflexivity.
Qed.

(** The sibling path: the failure of the chat model is caught inside the
    handler, the guest gets the generic apology and the request ends with
    status 200. *)
Lemma fallback_failure_is_caught req w :
  ~ awaiting w (From req) ->
  free_text req ->
  let sorry :=
    TwilioCreate (From req)
      (js "Lo siento, no pude procesar tu consulta ahora.") None in
  fails env (OpenAIChat (incomingMsg req)) = true ->
  fails env sorry = false ->
  whatsapp env req w =
  (Ok (Status 200),
   {| sessions := sessions w; reservas := reservas w;
      log := log w ++ [Called sorry] |}).
Proof.
  intros Ha (H1 & H2 & H3 & H4 & H5 & H6) sorry Hai Hsend. subst sorry.
  unfold whatsapp, sessions_get. rewrite bind_run.
  rewrite bool_decide_eq_false_2 by exact Ha.
  repeat match goal with
         | |- context [str_eq ?a ?b] =>
             let E := fresh "E" in
             destruct (str_eq a b) eqn:E;
             [apply bool_decide_eq_true in E; contradiction|]
         end.
  cbn [orb]. unfold fallback, try_catch, sendMessage.
  run env. rewrite Hai. run env. rewrite Hsend. run env. reflexivity.
Qed.

End Claims.

Lemma formato_invalido_keeps_session_witness :
  awaiting w_waiting (From req_hello) /\
  regex_match (incomingMsg req_hello) = None /\
  let reply := TwilioCreate (From req_hello) FORMATO_INVALIDO None in
  let w' := snd (whatsapp env_ok req_hello w_waiting) in
  sessions w' = sessions w_waiting /\ awaiting w' (From req_hello) /\
  reservas w' = reservas w_waiting /\
  (fails env_ok reply = false ->
   whatsapp env_ok req_hello w_waiting =
   (Ok (Status 200),
    {| sessions := sessions w_waiting; reservas := reservas w_waiting;
       log := log w_waiting ++ [Called reply] |})).
Proof.
  assert (H1 : awaiting w_waiting (From req_hello))
    by (vm_compute; reflexivity).
  assert (H2 : regex_match (incomingMsg req_hello) = None)
    by (vm_compute; reflexivity).
  exact (conj H1 (conj H2
           (formato_invalido_keeps_session env_ok req_hello w_waiting
              H1 H2))).
Defined.

Lemma no_disponible_closes_session_witness :
  let s := js "2025-10-20" in
  let e := js "2025-10-23" in
  awaiting w_proto_booked (From req_proto_octubre) /\
  parse_range (today env_ok) (incomingMsg req_proto_octubre) = Some (s, e) /\
  fst (isRangeAvailable env_ok (js "1") s e w_proto_booked) = Ok false /\
  awaiting (snd (whatsapp env_ok req_proto_octubre w_proto_booked))
    (From req_proto_octubre) /\
  let from := From req_proto_octubre in
  let decline := TwilioCreate from (no_disponible s e) None in
  let w' := snd (whatsapp env_ok req_proto_octubre w_proto_booked) in
  reservas w' = reservas w_proto_booked /\
  (exists l, log w' = log w_proto_booked ++ l /\
             forallb (fun ef => negb (is_add ef || is_artifact ef)) l = true) /\
  (fails env_ok decline = false ->
   whatsapp env_ok req_proto_octubre w_proto_booked =
   (Ok (Status 200),
    {| sessions := delete_own from (sessions w_proto_booked);
       reservas := reservas w_proto_booked;
       log := log w_proto_booked
              ++ [Called (FirestoreGet (js "1")); Called decline;
                  SessionDelete from] |})
   /\ (from <> js "__proto__" -> idle w' from)
   /\ (from = js "__proto__" -> awaiting w' from)).
Proof.
  intros s e.
  assert (H1 : awaiting w_proto_booked (From req_proto_octubre))
    by (vm_compute; reflexivity).
  assert (H2 : parse_range (today env_ok) (incomingMsg req_proto_octubre)
               = Some (s, e)) by (vm_compute; reflexivity).
  assert (H3 : fst (isRangeAvailable env_ok (js "1") s e w_proto_booked)
               = Ok false) by (vm_compute; reflexivity).
  pose proof (no_disponible_closes_session env_ok req_proto_octubre
                w_proto_booked s e H1 H2 H3) as T.
  exact (conj H1 (conj H2 (conj H3
           (conj (proj2 (proj2 (proj2 (proj2 T) eq_refl)) eq_refl) T)))).
Defined.

Lemma booking_pipeline_order_witness :
  let s := js "2025-10-20" in
  let e := js "2025-10-23" in
  awaiting w_proto_waiting (From req_proto_octubre) /\
  parse_range (today env_ok) (incomingMsg req_proto_octubre) = Some (s, e) /\
  fst (isRangeAvailable env_ok (js "1") s e w_proto_waiting) = Ok true /\
  Forall (fun c => fails env_ok c = false)
    (pipeline (newId env_ok) (From req_proto_octubre) s e) /\
  awaiting (snd (whatsapp env_ok req_proto_octubre w_proto_waiting))
    (From req_proto_octubre) /\
  let from := From req_proto_octubre in
  let id := newId env_ok in
  let png := js "reserva-" ++ id ++ js ".png" in
  let pdf := js "reserva-" ++ id ++ js ".pdf" in
  let qr := QRImage (qr_data id s e) in
  let w' := snd (whatsapp env_ok req_proto_octubre w_proto_waiting) in
  whatsapp env_ok req_proto_octubre w_proto_waiting =
  (Ok (Status 200),
   {| sessions := delete_own from (sessions w_proto_waiting);
      reservas := reservas w_proto_waiting ++ [(id, la_reserva from s e)];
      log := log w_proto_waiting ++
        [ Called (FirestoreGet (js "1"));
          Called (FirestoreAdd (la_reserva from s e));
          Called (QRCodeToBuffer (qr_data id s e));
          Called (FtpUpload png qr);
          Called (PdfKit {| pdf_id := id;
                            pdf_nombre := js "Huésped WhatsApp";
                            pdf_fechaEntrada := s;
                            pdf_fechaSalida := e;
                            pdf_personas := 1 |} qr);
          Called (FtpUpload pdf (el_pdf id s e));
          Called (TwilioCreate from (reserva_confirmada id s e)
                    (Some (stored_at pdf)));
          SessionDelete from ] |})
  /\ (from <> js "__proto__" -> idle w' from)
  /\ (from = js "__proto__" -> awaiting w' from).
Proof.
  intros s e.
  assert (H1 : awaiting w_proto_waiting (From req_proto_octubre))
    by (vm_compute; reflexivity).
  assert (H2 : parse_range (today env_ok) (incomingMsg req_proto_octubre)
               = Some (s, e)) by (vm_compute; reflexivity).
  assert (H3 : fst (isRangeAvailable env_ok (js "1") s e w_proto_waiting)
               = Ok true) by (vm_compute; reflexivity).
  assert (H4 : Forall (fun c => fails env_ok c = false)
                 (pipeline (newId env_ok) (From req_proto_octubre) s e))
    by (repeat constructor).
  pose proof (booking_pipeline_order env_ok req_proto_octubre
                w_proto_waiting s e H1 H2 H3 H4) as T.
  exact (conj H1 (conj H2 (conj H3 (conj H4
           (conj (proj2 (proj2 T) eq_refl) T))))).
Defined.

Lemma pipeline_failure_unhandled_witness :
  let s := js "2025-10-20" in
  let e := js "2025-10-23" in
  let from := From req_octubre in
  let id := newId env_ftp_down in
  let done := [FirestoreAdd (la_reserva from s e);
               QRCodeToBuffer (qr_data id s e)] in
  let c := FtpUpload (js "reserva-" ++ id ++ js ".png")
             (QRImage (qr_data id s e)) in
  awaiting w_waiting from /\
  parse_range (today env_ftp_down) (incomingMsg req_octubre) = Some (s, e) /\
  fst (isRangeAvailable env_ftp_down (js "1") s e w_waiting) = Ok true /\
  until_failure (fails env_ftp_down) (pipeline id from s e)
  = (done, Some c) /\
  let w' := snd (whatsapp env_ftp_down req_octubre w_waiting) in
  whatsapp env_ftp_down req_octubre w_waiting =
  (Throw c,
   {| sessions := sessions w_waiting;
      reservas := reservas w_waiting ++
        match done with
        | [] => []
        | _ :: _ => [(id, la_reserva from s e)]
        end;
      log := log w_waiting ++ [Called (FirestoreGet (js "1"))]
             ++ map Called done |})
  /\ awaiting w' from
  /\ forallb (fun ef => negb (is_send ef))
       ([Called (FirestoreGet (js "1"))] ++ map Called done) = true.
Proof.
  intros s e from id done c.
  assert (H1 : awaiting w_waiting from) by (vm_compute; reflexivity).
  assert (H2 : parse_range (today env_ftp_down) (incomingMsg req_octubre)
               = Some (s, e)) by (vm_compute; reflexivity).
  assert (H3 : fst (isRangeAvailable env_ftp_down (js "1") s e w_waiting)
               = Ok true) by (vm_compute; reflexivity).
  assert (H4 : until_failure (fails env_ftp_down) (pipeline id from s e)
               = (done, Some c)) by reflexivity.
  exact (conj H1 (conj H2 (conj H3 (conj H4
           (pipeline_failure_unhandled env_ftp_down req_octubre w_waiting
              s e done c H1 H2 H3 H4))))).
Defined.

(** ** From the menu to a booking *)

Section Flow.

Lemma uno_is_not_a_greeting :
  str_eq (js "1") (js "hola") || str_eq (js "1") (js "menu") = false.
Proof. vm_compute. reflexivity. Qed.

Lemma uno_is_uno : str_eq (js "1") (js "1") = true.
Proof. vm_compute. reflexivity. Qed.

(** Outside the waiting state the message ['1'] opens a session and asks
    for the dates. *)
Lemma whatsapp_uno env req w :
  ~ awaiting w (From req) ->
  toLowerCase (incomingMsg req) = js "1" ->
  whatsapp env req w =
  let from := From req in
  let prompt := TwilioCreate from PIDE_FECHAS None in
  let opened := <[from := {| step := waiting_dates |}]> (sessions w) in
  if fails env prompt
  then (Throw prompt,
        {| sessions := opened; reservas := reservas w;
           log := log w ++ [SessionSet from] |})
  else (Ok (Status 200),
        {| sessions := opened; reservas := reservas w;
           log := log w ++ [SessionSet from; Called prompt] |}).
Proof.
  intros Ha Hm. unfold whatsapp, sessions_get. rewrite bind_run.
  rewrite bool_decide_eq_false_2 by exact Ha.
  rewrite Hm, uno_is_not_a_greeting, uno_is_uno.
  unfold sendMessage, sessions_set, emit, PIDE_FECHAS. run env.
  cbv zeta. destruct (fails env _); run env; [reflexivity|].
  rewrite <- app_assoc. reflexivity.
Qed.

(** C7. From no session, the message ['1'] stores a session waiting for
    dates for the sender and sends the prompt for the dates; a following
    message with a date range, the room being free, runs the pipeline once
    (one booking written, each step made once) and then
    [delete sessions[from]]. That leaves every sender without session but
    ['__proto__'], who stays in the waiting state. *)
Theorem reservation_flow env1 env2 req1 req2 w s e :
  idle w (From req1) ->
  toLowerCase (incomingMsg req1) = js "1" ->
  fails env1 (TwilioCreate (From req1) PIDE_FECHAS None) = false ->
  From req2 = From req1 ->
  parse_range (today env2) (incomingMsg req2) = Some (s, e) ->
  fst (isRangeAvailable env2 (js "1") s e w) = Ok true ->
  Forall (fun c => fails env2 c = false)
    (pipeline (newId env2) (From req1) s e) ->
  let from := From req1 in
  let w1 := snd (whatsapp env1 req1 w) in
  let w2 := snd (whatsapp env2 req2 w1) in
  fst (whatsapp env1 req1 w) = Ok (Status 200) /\
  sessions w1 = <[from := {| step := waiting_dates |}]> (sessions w) /\
  log w1 = log w ++ [SessionSet from;
                     Called (TwilioCreate from PIDE_FECHAS None)] /\
  fst (whatsapp env2 req2 w1) = Ok (Status 200) /\
  sessions w2 = delete_own from (sessions w1) /\
  (from <> js "__proto__" -> idle w2 from) /\
  (from = js "__proto__" -> awaiting w2 from) /\
  log w2 = log w1 ++ [Called (FirestoreGet (js "1"))]
           ++ map Called (pipeline (newId env2) from s e)
           ++ [SessionDelete from] /\
  reservas w2 = reservas w ++ [(newId env2, la_reserva from s e)].
Proof.
  intros Hidle Hm Hsend Hfrom Hp Hav Hok. cbv zeta.
  assert (Ha : ~ awaiting w (From req1)).
  { unfold awaiting, idle in *. rewrite Hidle. discriminate. }
  rewrite (whatsapp_uno env1 req1 w Ha Hm). cbv zeta. rewrite Hsend.
  cbn [fst snd sessions log].
  split; [reflexivity|]. split; [reflexivity|]. split; [reflexivity|].
  set (w1 := {| sessions := _; reservas := reservas w; log := _ |}).
  assert (Ha1 : awaiting w1 (From req2)).
  { unfold awaiting, w1. cbn [sessions]. rewrite Hfrom, lookup_insert_eq.
    reflexivity. }
  assert (Hav1 : fst (isRangeAvailable env2 (js "1") s e w1) = Ok true).
  { rewrite isRangeAvailable_run in Hav |- *.
    destruct (fails env2 _); [discriminate|exact Hav]. }
  rewrite whatsapp_awaiting, esperando_fechas_run by exact Ha1.
  rewrite Hp, reservar_run. rewrite isRangeAvailable_run in Hav1.
  cbv zeta. destruct (fails env2 (FirestoreGet _)); [discriminate|].
  cbn [fst] in Hav1. injection Hav1 as ->.
  rewrite Hfrom, (until_failure_all _ _ Hok).
  cbn [fst snd sessions reservas log]. unfold w1. cbn [sessions].
  split; [reflexivity|]. split; [reflexivity|]. split; [|split].
  - intros Hn. unfold idle. cbn [sessions].
    rewrite (delete_own_other _ _ Hn). apply lookup_delete_eq.
  - intros Hp'. unfold awaiting. cbn [sessions].
    rewrite Hp', delete_own_proto. rewrite lookup_insert_eq. reflexivity.
  - split; reflexivity.
Qed.

End Flow.

Lemma reservation_flow_witness :
  let s := js "2025-10-20" in
  let e := js "2025-10-23" in
  idle w_idle (From req_proto_uno) /\
  toLowerCase (incomingMsg req_proto_uno) = js "1" /\
  fails env_ok (TwilioCreate (From req_proto_uno) PIDE_FECHAS None) = false /\
  From req_proto_octubre = From req_proto_uno /\
  parse_range (today env_ok) (incomingMsg req_proto_octubre) = Some (s, e) /\
  fst (isRangeAvailable env_ok (js "1") s e w_idle) = Ok true /\
  Forall (fun c => fails env_ok c = false)
    (pipeline (newId env_ok) (From req_proto_uno) s e) /\
  awaiting
    (snd (whatsapp env_ok req_proto_octubre
            (snd (whatsapp env_ok req_proto_uno w_idle))))
    (From req_proto_uno) /\
  let from := From req_proto_uno in
  let w1 := snd (whatsapp env_ok req_proto_uno w_idle) in
  let w2 := snd (whatsapp env_ok req_proto_octubre w1) in
  fst (whatsapp env_ok req_proto_uno w_idle) = Ok (Status 200) /\
  sessions w1 = <[from := {| step := waiting_dates |}]> (sessions w_idle) /\
  log w1 = log w_idle ++ [SessionSet from;
                          Called (TwilioCreate from PIDE_FECHAS None)] /\
  fst (whatsapp env_ok req_proto_octubre w1) = Ok (Status 200) /\
  sessions w2 = delete_own from (sessions w1) /\
  (from <> js "__proto__" -> idle w2 from) /\
  (from = js "__proto__" -> awaiting w2 from) /\
  log w2 = log w1 ++ [Called (FirestoreGet (js "1"))]
           ++ map Called (pipeline (newId env_ok) from s e)
           ++ [SessionDelete from] /\
  reservas w2 = reservas w_idle ++ [(newId env_ok, la_reserva from s e)].
Proof.
  intros s e.
  assert (H1 : idle w_idle (From req_proto_uno)) by (vm_compute; reflexivity).
  assert (H2 : toLowerCase (incomingMsg req_proto_uno) = js "1")
    by (vm_compute; reflexivity).
  assert (H3 : fails env_ok
                 (TwilioCreate (From req_proto_uno) PIDE_FECHAS None)
               = false) by reflexivity.
  assert (H4 : From req_proto_octubre = From req_proto_uno) by reflexivity.
  assert (H5 : parse_range (today env_ok) (incomingMsg req_proto_octubre)
               = Some (s, e)) by (vm_compute; reflexivity).
  assert (H6 : fst (isRangeAvailable env_ok (js "1") s e w_idle) = Ok true)
    by (vm_compute; reflexivity).
  assert (H7 : Forall (fun c => fails env_ok c = false)
                 (pipeline (newId env_ok) (From req_proto_uno) s e))
    by (repeat constructor).
  pose proof (reservation_flow env_ok env_ok req_proto_uno
                req_proto_octubre w_idle s e H1 H2 H3 H4 H5 H6 H7) as T.
  exact (conj H1 (conj H2 (conj H3 (conj H4 (conj H5 (conj H6 (conj H7
           (conj (proj1 (proj2 (proj2 (proj2 (proj2 (proj2 (proj2 T))))))
                    eq_refl) T)))))))).
Defined.

(** ** Invariants of the served process *)

Section Invariants.

Lemma serve_invariant (I : World -> Prop) :
  (forall env req w, I w -> I (snd (whatsapp env req w))) ->
  forall turns w, I w -> I (serve turns w).
Proof.
  intros Hstep turns. induction turns as [|[env req] turns IH]; intros w Hw.
  - exact Hw.
  - cbn [serve]. apply IH, Hstep, Hw.
Qed.

Lemma sessions_ok_step env req w :
  sessions_ok w -> sessions_ok (snd (whatsapp env req w)).
Proof.
  intros Hok.
  destruct (whatsapp_shape env req w) as (_ & _ & _ & _ & _ & _ & Hs).
  unfold sessions_ok. intros from s.
  destruct Hs as [->|[(-> & _ & _)|(-> & _)]].
  - apply Hok.
  - rewrite lookup_insert. case_decide.
    + intros [= <-]. reflexivity.
    + apply Hok.
  - rewrite lookup_delete. case_decide; [discriminate|apply Hok].
Qed.

(** C9. After every handled message, every stored session has the step
    [waiting_dates] (the store is a map, hence one entry per sender at
    most); and a turn leaves the store as it was, or adds an entry with that
    step, on the message ['1'] outside the waiting state, or removes the
    sender's entry, from the waiting state. *)
Theorem sessions_invariant docs turns :
  let w := serve turns (boot docs) in
  sessions_ok w /\
  (forall from s1 s2,
      sessions w !! from = Some s1 -> sessions w !! from = Some s2 ->
      s1 = s2 /\ step s1 = waiting_dates) /\
  forall env req, session_step req w (snd (whatsapp env req w)).
Proof.
  cbv zeta.
  assert (Hok : sessions_ok (serve turns (boot docs))).
  { apply serve_invariant; [intros; apply sessions_ok_step; assumption|].
    intros from s. cbn [boot sessions]. rewrite lookup_empty. discriminate. }
  split; [exact Hok|]. split.
  - intros from s1 s2 H1 H2. split; [congruence|eapply Hok; eauto].
  - intros env req.
    destruct (whatsapp_shape env req (serve turns (boot docs)))
      as (_ & _ & _ & _ & _ & _ & Hs). exact Hs.
Qed.

Lemma single_room_step docs env req w :
  single_room docs w -> single_room docs (snd (whatsapp env req w)).
Proof.
  intros (Hadd & Hget & Hdocs).
  destruct (whatsapp_shape env req w)
    as (l & added & Hlog & Hres & Hl & Ha & _).
  rewrite List.Forall_forall in Hl, Ha.
  unfold single_room. rewrite Hlog, Hres.
  split; [|split].
  - intros r [H|H]%in_app_iff; [auto|].
    destruct (Hl _ H) as (s & e & ->). apply la_reserva_fixed.
  - intros room [H|H]%in_app_iff; [auto|]. exact (Hl _ H).
  - intros d [H|H]%in_app_iff; [auto|]. right. exact (Ha _ H).
Qed.

(** C10. Whatever the messages, every booking the webhook writes has
    [roomId] ['1'], [personas] 1, [nombre] ['Huésped WhatsApp'], [origen]
    ['WhatsApp'] and [estado] ['confirmada'], and every availability query
    is for room ['1']; within a turn the booking written is the one of the
    sender and of the dates read, nothing else varying. *)
Theorem bookings_are_single_room docs turns :
  let w := serve turns (boot docs) in
  (forall r, In (Called (FirestoreAdd r)) (log w) ->
     roomId r = js "1" /\ personas r = 1%Z /\
     nombre r = js "Huésped WhatsApp" /\ origen r = js "WhatsApp" /\
     estado r = js "confirmada") /\
  (forall room, In (Called (FirestoreGet room)) (log w) -> room = js "1") /\
  (forall d, In d (reservas w) -> In d docs \/ fixed_fields (snd d)) /\
  forall env req,
    exists l, log (snd (whatsapp env req w)) = log w ++ l /\
      forall r, In (Called (FirestoreAdd r)) l ->
        exists s e, r = la_reserva (From req) s e.
Proof.
  cbv zeta.
  assert (H : single_room docs (serve turns (boot docs))).
  { apply serve_invariant; [intros; apply single_room_step; assumption|].
    split; [|split]; cbn [boot log reservas]; intros; try contradiction;
      auto. }
  destruct H as (Hadd & Hget & Hdocs).
  split; [exact Hadd|]. split; [exact Hget|]. split; [exact Hdocs|].
  intros env req.
  destruct (whatsapp_shape env req (serve turns (boot docs)))
    as (l & added & Hl & _ & Hok & _).
  exists l. split; [exact Hl|].
  rewrite List.Forall_forall in Hok. intros r Hr. exact (Hok _ Hr).
Qed.

End Invariants.

(** ** The earlier entry point behaves alike *)

Section EarlierEntryPoint.

Variable env : Env.
Variable engineDate : jsstring -> option Z.

(** Sending the confirmation through [twilioClient.messages.create] with
    [mediaUrl: [pdfUrl]] is what [sendMessage] does for a PDF address, which
    is never empty. *)
Lemma part000_confirmar_run from s e w :
  Part000.confirmar env from s e (js "1") w =
  confirmar env from s e (js "1") w.
Proof.
  rewrite confirmar_run.
  unfold Part000.confirmar, pipeline, until_failure, add, toBuffer,
    uploadQRtoFTP, generarPDFReserva, uploadPDFtoFTP, el_pdf, stored_at,
    reserva_confirmada.
  run env. split_call env; run env.
  { destruct w; cbn [sessions reservas log map]. rewrite !app_nil_r.
    reflexivity. }
  do 5 (split_call env; run env; [rewrite <- ?app_assoc; reflexivity|]).
  rewrite <- !app_assoc. reflexivity.
Qed.

Lemma part000_reservar_run from s e w :
  Part000.reservar env from s e w = reservar env from s e w.
Proof.
  unfold Part000.reservar, reservar. rewrite !bind_run.
  destruct (isRangeAvailable env (js "1") s e w) as [[[|]|c] w1];
    cbn [negb]; rewrite ?bind_run, ?part000_confirmar_run; reflexivity.
Qed.

(** Waiting for dates, the earlier handler differs only in the dates it
    reads. *)
Lemma part000_whatsapp_awaiting req w :
  awaiting w (From req) ->
  Part000.whatsapp env engineDate req w =
  match regex_match (incomingMsg req) with
  | Some (m1, m2) =>
      reservar env (From req)
        (format (engineDate m1)) (format (engineDate m2)) w
  | None =>
      let c := TwilioCreate (From req) FORMATO_INVALIDO None in
      if fails env c then (Throw c, w)
      else (Ok (Status 200),
            {| sessions := sessions w; reservas := reservas w;
               log := log w ++ [Called c] |})
  end.
Proof.
  unfold awaiting, Part000.whatsapp, sessions_get. intros H.
  rewrite bind_run, bool_decide_eq_true_2 by exact H.
  unfold Part000.esperando_fechas, Part000.dayjs.
  destruct (regex_match _) as [[m1 m2]|]; [apply part000_reservar_run|].
  rewrite bind_run. unfold sendMessage, FORMATO_INVALIDO. rewrite call_run.
  cbv zeta. destruct (fails env _); reflexivity.
Qed.

Lemma part000_whatsapp_shape req w :
  turn_shape req w (snd (Part000.whatsapp env engineDate req w)).
Proof.
  destruct (decide (step <$> sessions w !! From req = Some waiting_dates))
    as [Ha|Ha].
  - rewrite part000_whatsapp_awaiting by exact Ha.
    destruct (regex_match _) as [[m1 m2]|].
    + apply reservar_shape, Ha.
    + cbv zeta. destruct (fails env _).
      * apply turn_shape_refl.
      * apply turn_shape_same. repeat constructor.
  - unfold Part000.whatsapp, sessions_get. rewrite bind_run.
    rewrite bool_decide_eq_false_2 by exact Ha.
    destruct (str_eq _ (js "1")) eqn:E1.
    { apply bool_decide_eq_true in E1. apply uno_shape; assumption. }
    destruct (str_eq _ (js "hola") || str_eq _ (js "menu"));
      apply sendMessage_shape.
Qed.

End EarlierEntryPoint.

(** The invariants of the served process hold for the earlier handler as
    well. *)
Lemma part000_invariants engineDate docs turns :
  let w := Part000.serve engineDate turns (boot docs) in
  sessions_ok w /\ single_room docs w.
Proof.
  cbv zeta.
  assert (H : forall w, sessions_ok w /\ single_room docs w ->
              sessions_ok (Part000.serve engineDate turns w) /\
              single_room docs (Part000.serve engineDate turns w)).
  { induction turns as [|[env req] turns IH]; intros w Hw; [exact Hw|].
    cbn [Part000.serve]. apply IH. destruct Hw as [Hs (Hadd & Hget & Hdocs)].
    destruct (part000_whatsapp_shape env engineDate req w)
      as (l & added & Hlog & Hres & Hl & Ha & Hstep).
    rewrite List.Forall_forall in Hl, Ha. split.
    - unfold sessions_ok. intros from s.
      destruct Hstep as [->|[(-> & _ & _)|(-> & _)]].
      + apply Hs.
      + rewrite lookup_insert. case_decide.
        * intros [= <-]. reflexivity.
        * apply Hs.
      + rewrite lookup_delete. case_decide; [discriminate|apply Hs].
    - unfold single_room. rewrite Hlog, Hres. split; [|split].
      + intros r [H|H]%in_app_iff; [auto|].
        destruct (Hl _ H) as (s & e & ->). apply la_reserva_fixed.
      + intros room [H|H]%in_app_iff; [auto|]. exact (Hl _ H).
      + intros d [H|H]%in_app_iff; [auto|]. right. exact (Ha _ H). }
  apply H. split.
  - intros from s. cbn [boot sessions]. rewrite lookup_empty. discriminate.
  - split; [|split]; cbn [boot log reservas]; intros; try contradiction;
      auto.
Qed.

(** ** The first character of a formatted date *)

Section FormatHead.

Local Open Scope Z_scope.

Lemma digits_head fuel n acc : numeric_head (digits (S fuel) n acc).
Proof.
  revert n acc. induction fuel as [|fuel IH]; intros n acc.
  - cbn [digits]. pose proof (Z.mod_pos_bound n 10 ltac:(lia)).
    destruct (n / 10 =? 0); eexists; eexists; (split; [reflexivity|lia]).
  - rewrite digits_S. pose proof (Z.mod_pos_bound n 10 ltac:(lia)).
    destruct (n / 10 =? 0); [|apply IH].
    eexists; eexists; (split; [reflexivity|]). unfold digit_char. lia.
Qed.

Lemma numToString_head n : numeric_head (numToString n).
Proof.
  unfold numToString. destruct (n <? 0); [|apply digits_head].
  eexists; eexists; (split; [reflexivity|]). left. reflexivity.
Qed.

Lemma padStart_head len s : numeric_head s -> numeric_head (padStart len s).
Proof.
  intros (c & rest & -> & Hc). unfold padStart.
  destruct (len - length (c :: rest))%nat as [|k]; cbn [repeat app].
  - exists c, rest. split; [reflexivity|exact Hc].
  - eexists; eexists; (split; [reflexivity|]). lia.
Qed.

Lemma format_is_not_invalid t : format (Some t) <> INVALID_DATE_STRING.
Proof.
  unfold format.
  destruct (padStart_head 4 _ (numToString_head (getFullYear t)))
    as (c & rest & -> & Hc).
  intros E. apply (f_equal (hd 0%N)) in E. cbn [app hd] in E.
  change (hd 0%N INVALID_DATE_STRING) with 73%N in E. lia.
Qed.

Lemma dayjs_of_group now g : is_group g -> exists t, dayjs now g = Some t.
Proof.
  intros (d & m & y & P & _)%is_group_fields.
  unfold dayjs, parseFormattedInput. rewrite P.
  cbv beta iota zeta delta [mbind option_bind]. eexists. reflexivity.
Qed.

End FormatHead.

(** ** Fields out of range *)

Section Carry.

Local Open Scope Z_scope.






End Carry.

(** ** The date-range parser *)


Section Parser.

Local Open Scope Z_scope.



End Parser.





(** * Further properties of the code *)

(** ** Every branch of a turn *)

(** Case analysis on the calls of the goal, each thrown or answered. *)
Ltac split_calls env :=
  repeat (split_call env; cbv beta iota zeta; run env).

(** The branches of a turn in the waiting state. *)
Ltac waiting_cases env req w Ha :=
  rewrite (whatsapp_awaiting env req w Ha), esperando_fechas_run;
  let s := fresh "s" in
  let e := fresh "e" in
  let Hp := fresh "Hp" in
  destruct (parse_range (today env) (incomingMsg req)) as [[s e]|] eqn:Hp;
  [ rewrite reservar_run; cbv zeta;
    let Eg := fresh "Eg" in
    destruct (fails env (FirestoreGet (js "1"))) eqn:Eg;
    [ | let Es := fresh "Es" in
        destruct (scan (bookings_of (js "1") w) s e) eqn:Es;
        [ unfold pipeline, until_failure; split_calls env
        | split_calls env ] ]
  | cbv zeta; split_calls env ].

(** One call: thrown or answered. *)
Ltac one_call env :=
  match goal with
  | |- context [fails env ?c] =>
      let E := fresh "E" in destruct (fails env c) eqn:E; run env
  end.

(** The branches of a turn outside the waiting state. *)
Ltac idle_cases env req w Ha :=
  unfold whatsapp, sessions_get; rewrite bind_run;
  rewrite (bool_decide_eq_false_2 _ Ha);
  let G := fresh "Egreet" in
  destruct (str_eq (toLowerCase (incomingMsg req)) (js "hola")
            || str_eq (toLowerCase (incomingMsg req)) (js "menu")) eqn:G;
  [ unfold sendMessage; run env; one_call env
  | let E1 := fresh "E1" in
    destruct (str_eq (toLowerCase (incomingMsg req)) (js "1")) eqn:E1;
    [ unfold sendMessage, sessions_set, emit; run env; one_call env
    | let E2 := fresh "E2" in
      destruct (str_eq (toLowerCase (incomingMsg req)) (js "2")) eqn:E2;
      [ unfold sendMessage; run env; one_call env
      | let E3 := fresh "E3" in
        destruct (str_eq (toLowerCase (incomingMsg req)) (js "3")) eqn:E3;
        [ unfold sendMessage; run env; one_call env
        | let E4 := fresh "E4" in
          destruct (str_eq (toLowerCase (incomingMsg req)) (js "4")) eqn:E4;
          [ unfold sendMessage; run env; one_call env
          | unfold fallback, try_catch, sendMessage; run env;
            let Eai := fresh "Eai" in
            destruct (fails env (OpenAIChat (incomingMsg req))) eqn:Eai;
            run env;
            [ one_call env
            | let Ebot := fresh "Ebot" in
              match goal with
              | |- context [fails env (TwilioCreate ?a (?b ++ ?c) ?d)] =>
                  destruct (fails env (TwilioCreate a (b ++ c) d)) eqn:Ebot
              end;
              run env; [ one_call env | ] ] ] ] ] ] ].

(** All the branches of a turn. *)
Ltac turn_cases env req w :=
  let Ha := fresh "Ha" in
  destruct (decide (step <$> sessions w !! From req = Some waiting_dates))
    as [Ha|Ha];
  [ waiting_cases env req w Ha | idle_cases env req w Ha ].

(** Closes a goal [exists l, log' = log w ++ l /\ ...] on explicit logs. *)
Ltac the_log :=
  cbn [fst snd sessions reservas log];
  first [ exists []; split; [symmetry; apply app_nil_r|]
        | eexists; split; [reflexivity|]
        | eexists; split; [rewrite <- ?app_assoc; reflexivity|] ].

(** Reads off the messages and the questions of an explicit log. *)
Ltac observed :=
  cbn [fst snd]; unfold messages, questions; cbn [flat_map app].

(** Case analysis on a membership in an explicit list. *)
Ltac members :=
  repeat match goal with
         | H : In _ (_ :: _) |- _ => destruct H as [H|H]
         | H : In _ [] |- _ => destruct H
         end.

Section EveryTurn.

Variable env : Env.

Lemma free_text_intro req :
  let msg := toLowerCase (incomingMsg req) in
  str_eq msg (js "hola") || str_eq msg (js "menu") = false ->
  str_eq msg (js "1") = false -> str_eq msg (js "2") = false ->
  str_eq msg (js "3") = false -> str_eq msg (js "4") = false ->
  free_text req.
Proof.
  intros msg G E1 E2 E3 E4. apply orb_false_elim in G as [Eh Em].
  unfold free_text. fold msg.
  split; [exact (proj1 (bool_decide_eq_false _) Eh)|].
  split; [exact (proj1 (bool_decide_eq_false _) Em)|].
  split; [exact (proj1 (bool_decide_eq_false _) E1)|].
  split; [exact (proj1 (bool_decide_eq_false _) E2)|].
  split; [exact (proj1 (bool_decide_eq_false _) E3)|].
  exact (proj1 (bool_decide_eq_false _) E4).
Qed.

Lemma reservas_step req w :
  reservas (snd (whatsapp env req w)) = reservas w \/
  exists s e,
    awaiting w (From req) /\
    parse_range (today env) (incomingMsg req) = Some (s, e) /\
    scan (bookings_of (js "1") w) s e = true /\
    reservas (snd (whatsapp env req w))
    = reservas w ++ [(newId env, la_reserva (From req) s e)].
Proof.
  turn_cases env req w; cbn [snd reservas];
    first [ left; reflexivity
          | left; apply app_nil_r
          | right; exists s, e; split; [exact Ha|];
            split; [reflexivity|]; split; [exact Es|]; reflexivity ].
Qed.

(** X1. A turn that completes has answered 200 and sent one message, to the
    sender; a turn that throws has sent none. *)
Theorem one_message_per_turn req w :
  exists l, log (snd (whatsapp env req w)) = log w ++ l /\
    match fst (whatsapp env req w) with
    | Ok r =>
        r = Status 200 /\
        exists body media, messages l = [(From req, body, media)]
    | Throw _ => messages l = []
    end.
Proof.
  turn_cases env req w; the_log; observed;
    first [ reflexivity
          | split; [reflexivity | eexists; eexists; reflexivity] ].
Qed.

(** X2. Only the confirmation of a booking carries a file. *)
Theorem media_only_on_confirmation req w :
  exists l, log (snd (whatsapp env req w)) = log w ++ l /\
    forall to body url, In (to, body, Some url) (messages l) ->
      awaiting w (From req) /\
      exists s e,
        parse_range (today env) (incomingMsg req) = Some (s, e) /\
        body = reserva_confirmada (newId env) s e /\
        url = stored_at (js "reserva-" ++ newId env ++ js ".pdf") /\
        In (Called (FtpUpload (js "reserva-" ++ newId env ++ js ".pdf")
                      (el_pdf (newId env) s e))) l.
Proof.
  turn_cases env req w; the_log; observed; intros to body url Hin; members;
    try discriminate Hin.
  injection Hin as <- <- <-. split; [exact Ha|]. exists s, e.
  split; [reflexivity|]. split; [reflexivity|]. split; [reflexivity|].
  do 5 right. left. reflexivity.
Qed.

(** X3. The chat model is asked at most once, the text of the guest, and
    only outside the waiting state for a text that is no entry of the
    menu. *)
Theorem chat_model_only_for_free_text req w :
  exists l, log (snd (whatsapp env req w)) = log w ++ l /\
    (questions l = [] \/
     questions l = [incomingMsg req] /\
     ~ awaiting w (From req) /\ free_text req).
Proof.
  turn_cases env req w; the_log; observed;
    first [ left; reflexivity
          | right; split; [reflexivity|]; split; [exact Ha|];
            exact (free_text_intro req Egreet E1 E2 E3 E4) ].
Qed.

(** X4. A booking is written only in the waiting state, once, after the
    query of the room, for the range read from the text, and when the scan
    of the documents found no conflict. *)
Theorem booking_written_only_when_free req w :
  exists l, log (snd (whatsapp env req w)) = log w ++ l /\
    forall r, In (Called (FirestoreAdd r)) l ->
      awaiting w (From req) /\
      exists s e l',
        parse_range (today env) (incomingMsg req) = Some (s, e) /\
        r = la_reserva (From req) s e /\
        scan (bookings_of (js "1") w) s e = true /\
        l = Called (FirestoreGet (js "1")) :: Called (FirestoreAdd r) :: l' /\
        ~ In (Called (FirestoreAdd r)) l' /\
        reservas (snd (whatsapp env req w)) = reservas w ++ [(newId env, r)].
Proof.
  turn_cases env req w; the_log; cbn [fst snd reservas app];
    intros r Hin; members; try discriminate Hin;
    injection Hin as <-; (split; [exact Ha|]); exists s, e; eexists;
    (split; [reflexivity|]); (split; [reflexivity|]); (split; [exact Es|]);
    (split; [reflexivity|]); (split; [|reflexivity]);
    intros Hin; members; discriminate Hin.
Qed.

End EveryTurn.

(** ** The sessions *)

Section TheSessions.

Variable env : Env.

Lemma greeting_is_not_uno msg :
  str_eq msg (js "hola") || str_eq msg (js "menu") = true ->
  str_eq msg (js "1") = false.
Proof.
  intros G. apply bool_decide_eq_false. intros ->.
  rewrite uno_is_not_a_greeting in G. discriminate G.
Qed.

(** The sessions after a turn. *)
Lemma sessions_after req w :
  sessions (snd (whatsapp env req w)) =
  if bool_decide (step <$> sessions w !! From req = Some waiting_dates)
  then match parse_range (today env) (incomingMsg req),
             fst (whatsapp env req w) with
       | Some _, Ok _ => delete_own (From req) (sessions w)
       | _, _ => sessions w
       end
  else if str_eq (toLowerCase (incomingMsg req)) (js "1")
       then <[From req := {| step := waiting_dates |}]> (sessions w)
       else sessions w.
Proof.
  turn_cases env req w;
    rewrite ?(bool_decide_eq_true_2 _ Ha);
    cbn [fst snd sessions]; rewrite ?(greeting_is_not_uno _ Egreet), ?E1;
    reflexivity.
Qed.

(** X5. After a turn the sender waits for dates in two cases: the turn was
    the message ['1'] outside that state, or the sender was waiting and the
    turn found no dates, or threw, or the sender is ['__proto__'], whose
    entry [delete] does not remove. *)
Theorem waiting_after_turn req w :
  awaiting (snd (whatsapp env req w)) (From req) <->
    (~ awaiting w (From req) /\ toLowerCase (incomingMsg req) = js "1") \/
    (awaiting w (From req) /\
     (parse_range (today env) (incomingMsg req) = None \/
      (exists c, fst (whatsapp env req w) = Throw c) \/
      From req = js "__proto__")).
Proof.
  unfold awaiting at 1. rewrite sessions_after.
  case_bool_decide as Ha.
  - destruct (parse_range (today env) (incomingMsg req)) as [p|] eqn:Hp;
      [destruct (fst (whatsapp env req w)) as [r|c] eqn:Hr|].
    + destruct (delete_own_cases (From req) (sessions w)) as [[Hf E]|[Hf E]];
        rewrite E.
      * split; [|intros _; exact Ha].
        intros _. right. split; [exact Ha|]. right. right. exact Hf.
      * rewrite lookup_delete_eq. split; [discriminate|].
        intros [[Hn _]|[_ [H|[[c H]|H]]]];
          [contradiction|discriminate H|discriminate H|contradiction].
    + split; [|intros _; exact Ha].
      intros _. right. split; [exact Ha|]. right. left. exists c.
      reflexivity.
    + split; [|intros _; exact Ha].
      intros _. right. split; [exact Ha|]. left. reflexivity.
  - unfold str_eq. case_bool_decide as E1.
    + rewrite lookup_insert_eq. split; [|reflexivity].
      intros _. left. split; [exact Ha|exact E1].
    + split; [contradiction|].
      intros [[_ H]|[H _]]; contradiction.
Qed.

(** A turn leaves the sessions of the other senders as they were. *)
Lemma other_sessions_step req w from :
  from <> From req ->
  sessions (snd (whatsapp env req w)) !! from = sessions w !! from.
Proof.
  intros Hne. rewrite sessions_after. unfold delete_own.
  repeat match goal with
         | |- context [if ?b then _ else _] => destruct b
         | |- context [match ?x with Some _ => _ | None => _ end] => destruct x
         | |- context [match ?x with Ok _ => _ | Throw _ => _ end] => destruct x
         end;
    rewrite ?lookup_delete_ne, ?lookup_insert_ne by exact (not_eq_sym Hne);
    reflexivity.
Qed.

End TheSessions.

(** X6. The session of a sender changes only in the turns of that sender. *)
Theorem silent_sender_keeps_session from turns w :
  Forall (fun t => From (snd t) <> from) turns ->
  sessions (serve turns w) !! from = sessions w !! from.
Proof.
  intros H. revert w.
  induction H as [|[env req] turns Hne _ IH]; intros w; [reflexivity|].
  cbn [serve]. rewrite IH. apply other_sessions_step.
  exact (not_eq_sym Hne).
Qed.

Lemma proto_waits_step env req w :
  awaiting w (js "__proto__") ->
  awaiting (snd (whatsapp env req w)) (js "__proto__").
Proof.
  intros Ha. unfold awaiting in *.
  destruct (decide (js "__proto__" = From req)) as [E|E].
  - rewrite sessions_after. rewrite <- E.
    rewrite (bool_decide_eq_true_2 _ Ha), delete_own_proto.
    destruct (parse_range _ _); [|exact Ha].
    destruct (fst _); exact Ha.
  - rewrite (other_sessions_step env req w _ E). exact Ha.
Qed.

(** X25. Once the sender ['__proto__'] waits for dates, it does so after
    every further turn, whoever sends it and whatever it does: the entry
    is the prototype of [sessions], which no [delete] removes. *)
Theorem proto_sender_waits_for_ever turns w :
  awaiting w (js "__proto__") ->
  awaiting (serve turns w) (js "__proto__").
Proof.
  revert w. induction turns as [|[env req] turns IH]; intros w Ha;
    [exact Ha|].
  cbn [serve]. apply IH, proto_waits_step, Ha.
Qed.

(** ** The bookings of the room *)

Section TheBookings.

Lemma scan_app docs1 docs2 s e :
  scan (docs1 ++ docs2) s e = scan docs1 s e && scan docs2 s e.
Proof.
  induction docs1 as [|r docs1 IH]; [reflexivity|].
  cbn [app scan]. destruct (negb _); [reflexivity|exact IH].
Qed.

Lemma bookings_of_snoc w w' id from s e :
  reservas w' = reservas w ++ [(id, la_reserva from s e)] ->
  bookings_of (js "1") w' = bookings_of (js "1") w ++ [la_reserva from s e].
Proof.
  intros H. unfold bookings_of. rewrite H, filter_app, map_app.
  rewrite filter_cons_True by reflexivity. reflexivity.
Qed.

Lemma bookings_of_same w w' room :
  reservas w' = reservas w -> bookings_of room w' = bookings_of room w.
Proof. intros H. unfold bookings_of. rewrite H. reflexivity. Qed.

Lemma conflicts_sym from s e r :
  conflicts (fechaEntrada r) (fechaSalida r) (la_reserva from s e)
  <-> conflicts s e r.
Proof.
  unfold conflicts, str_gt. cbn [fechaEntrada fechaSalida la_reserva]. tauto.
Qed.

Lemma no_overlaps_snoc docs r :
  no_overlaps docs ->
  (forall r', In r' docs -> ~ conflicts (fechaEntrada r') (fechaSalida r') r) ->
  no_overlaps (docs ++ [r]).
Proof.
  induction docs as [|d docs IH]; intros Hn Hr.
  - cbn. split; [intros ? []|exact I].
  - destruct Hn as [Hd Hn]. cbn [app no_overlaps]. split.
    + intros r' [Hin|Hin]%in_app_or.
      * exact (Hd r' Hin).
      * destruct Hin as [<-|[]]. apply Hr. left. reflexivity.
    + apply IH; [exact Hn|]. intros r' Hin. apply Hr. right. exact Hin.
Qed.

Lemma no_overlaps_step env req w :
  no_overlaps (bookings_of (js "1") w) ->
  no_overlaps (bookings_of (js "1") (snd (whatsapp env req w))).
Proof.
  intros Hn.
  destruct (reservas_step env req w) as [H|(s & e & _ & _ & Hs & H)].
  - rewrite (bookings_of_same _ _ _ H). exact Hn.
  - rewrite (bookings_of_snoc _ _ _ _ _ _ H).
    apply no_overlaps_snoc; [exact Hn|].
    intros r Hin Hc. apply conflicts_sym in Hc.
    exact (proj1 (scan_true_iff _ _ _) Hs r Hin Hc).
Qed.

(** X7. Turns handled one after the other never store two bookings of room
    ['1'] that conflict, when the collection started without such a pair. *)
Theorem bookings_never_overlap docs turns :
  no_overlaps (bookings_of (js "1") (boot docs)) ->
  no_overlaps (bookings_of (js "1") (serve turns (boot docs))).
Proof.
  generalize (boot docs). intros w. revert w.
  induction turns as [|[env req] turns IH]; intros w Hn; [exact Hn|].
  cbn [serve]. apply IH, no_overlaps_step, Hn.
Qed.

(** X8. No turn removes or changes a stored booking, and each turn stores at
    most one. *)
Theorem bookings_only_grow turns w :
  exists added,
    reservas (serve turns w) = reservas w ++ added /\
    (length added <= length turns)%nat /\
    Forall (fun d => exists from s e, snd d = la_reserva from s e) added.
Proof.
  revert w. induction turns as [|[env req] turns IH]; intros w.
  - exists []. split; [symmetry; apply app_nil_r|].
    split; [reflexivity|constructor].
  - cbn [serve].
    destruct (IH (snd (whatsapp env req w))) as (added & -> & Hl & Hf).
    destruct (reservas_step env req w) as [->|(s & e & _ & _ & _ & ->)].
    + exists added. split; [reflexivity|]. split; [cbn [length]; lia|exact Hf].
    + exists ((newId env, la_reserva (From req) s e) :: added).
      split; [rewrite <- app_assoc; reflexivity|].
      split; [cbn [length]; lia|].
      constructor; [|exact Hf]. exists (From req), s, e. reflexivity.
Qed.

(** X9. Once the booking of a range is written, even by a turn that threw
    later, the same range is found free again exactly when its end is
    before its start. *)
Theorem booked_range_free_again_iff_reversed env env' req w s e :
  awaiting w (From req) ->
  parse_range (today env) (incomingMsg req) = Some (s, e) ->
  fst (isRangeAvailable env (js "1") s e w) = Ok true ->
  fails env (FirestoreAdd (la_reserva (From req) s e)) = false ->
  fails env' (FirestoreGet (js "1")) = false ->
  fst (isRangeAvailable env' (js "1") s e (snd (whatsapp env req w)))
  = Ok (str_lt e s).
Proof.
  intros Ha Hp Hav Hadd Hget.
  rewrite isRangeAvailable_run in Hav.
  destruct (fails env (FirestoreGet (js "1"))) eqn:Eg; [discriminate Hav|].
  cbn [fst] in Hav. injection Hav as Hs.
  assert (H : reservas (snd (whatsapp env req w))
              = reservas w ++ [(newId env, la_reserva (From req) s e)]).
  { rewrite (whatsapp_awaiting env req w Ha), esperando_fechas_run, Hp,
      reservar_run. cbv zeta. rewrite Eg, Hs.
    unfold pipeline.
    match goal with
    | |- context [until_failure ?f (?c :: ?cs)] =>
        change (until_failure f (c :: cs))
          with (if f c then ([], Some c)
                else let '(done, fl) := until_failure f cs in (c :: done, fl))
    end.
    rewrite Hadd.
    destruct (until_failure (fails env) _) as [done [c|]]; reflexivity. }
  rewrite isRangeAvailable_run, Hget. cbn [fst].
  rewrite (bookings_of_snoc _ _ _ _ _ _ H), scan_app, Hs.
  cbn [scan andb fechaEntrada fechaSalida la_reserva]. unfold str_gt.
  destruct (str_lt e s); reflexivity.
Qed.

(** X10. The answer of [isRangeAvailable] does not depend on the order in
    which the documents come back. *)
Theorem availability_ignores_document_order env room s e w w' :
  reservas w ≡ₚ reservas w' ->
  fst (isRangeAvailable env room s e w)
  = fst (isRangeAvailable env room s e w').
Proof.
  intros Hperm. rewrite !isRangeAvailable_run.
  destruct (fails env (FirestoreGet room)); [reflexivity|]. cbn [fst]. f_equal.
  assert (Hb : bookings_of room w ≡ₚ bookings_of room w').
  { unfold bookings_of. rewrite Hperm. reflexivity. }
  clear Hperm. induction Hb as [|r l l' _ IH|r r' l|l l' l'' _ IH1 _ IH2].
  - reflexivity.
  - cbn [scan]. rewrite IH. reflexivity.
  - cbn [scan]. destruct (negb _), (negb _); reflexivity.
  - rewrite IH1. exact IH2.
Qed.

End TheBookings.

(** ** Free text *)

Section FreeText.

Variable env : Env.

(** X11. A text that is no entry of the menu, outside the waiting state: the
    chat model is asked and its answer sent; when either throws, the apology is
    sent instead, and only the failure of the apology leaves the handler. *)
Theorem free_text_turn req w :
  ~ awaiting w (From req) ->
  free_text req ->
  let ask := OpenAIChat (incomingMsg req) in
  let answer :=
    TwilioCreate (From req) (js "🤖 " ++ aiResponse env (incomingMsg req))
      None in
  let sorry :=
    TwilioCreate (From req)
      (js "Lo siento, no pude procesar tu consulta ahora.") None in
  let asked := if fails env ask then [] else [Called ask] in
  let after l r :=
    (r, {| sessions := sessions w; reservas := reservas w;
           log := log w ++ l |}) in
  whatsapp env req w =
  if negb (fails env ask) && negb (fails env answer)
  then after [Called ask; Called answer] (Ok (Status 200))
  else if fails env sorry then after asked (Throw sorry)
  else after (asked ++ [Called sorry]) (Ok (Status 200)).
Proof.
  intros Ha (H1 & H2 & H3 & H4 & H5 & H6). cbv zeta.
  assert (Hw : forall r : Res Response,
             (r, w) = (r, {| sessions := sessions w; reservas := reservas w;
                             log := log w ++ [] |})).
  { intros r. rewrite app_nil_r. destruct w; reflexivity. }
  unfold whatsapp, sessions_get. rewrite bind_run.
  rewrite bool_decide_eq_false_2 by exact Ha.
  repeat match goal with
         | |- context [str_eq ?a ?b] =>
             let E := fresh "E" in
             destruct (str_eq a b) eqn:E;
             [apply bool_decide_eq_true in E; contradiction|]
         end.
  cbn [orb]. unfold fallback, try_catch, sendMessage. run env.
  destruct (fails env (OpenAIChat (incomingMsg req))) eqn:Eai; run env;
    cbn [negb andb].
  - one_call env; [apply Hw|reflexivity].
  - match goal with
    | |- context [fails env (TwilioCreate ?a (?b ++ ?c) ?d)] =>
        destruct (fails env (TwilioCreate a (b ++ c) d)) eqn:Ebot
    end; run env; cbn [negb].
    + one_call env; rewrite <- ?app_assoc; reflexivity.
    + rewrite <- app_assoc. reflexivity.
Qed.

End FreeText.

(** ** The FTP uploads *)

Section Uploads.

Import Ftp.

Variable failing : Op -> bool.


(** X13. An upload returns the public address of the file exactly when the
    server accepted the three steps; otherwise it throws the first step
    that was refused, and the later ones are not tried. *)
Theorem upload_result content filename :
  let ops := upload_ops filename content in
  let r := uploadQRtoFTP failing content filename in
  (fst r = inl (stored_at filename)
   <-> Forall (fun op => failing op = false) ops) /\
  (forall op, fst r = inr op ->
     failing op = true /\
     exists done later,
       ops = done ++ op :: later /\ snd r = done ++ [Close] /\
       Forall (fun op' => failing op' = false) done).
Proof.
  cbv zeta.
  unfold uploadQRtoFTP, try_finally, close, upload_ops, stored_at.
  unfold mbind, F_bind, mret, F_ret, step.
  destruct (failing Access) eqn:E1;
    [|destruct (failing (EnsureDir (js "/qr"))) eqn:E2;
      [|destruct (failing (UploadFrom filename content)) eqn:E3]];
    cbn [fst snd].
  - split; [split; [discriminate|]|].
    + intros H. inversion H; subst. congruence.
    + intros op [= <-]. split; [exact E1|].
      exists [], [EnsureDir (js "/qr"); UploadFrom filename content].
      split; [reflexivity|]. split; [reflexivity|constructor].
  - split; [split; [discriminate|]|].
    + intros H. inversion H as [|? ? _ H']; subst. inversion H'; subst.
      congruence.
    + intros op [= <-]. split; [exact E2|].
      exists [Access], [UploadFrom filename content].
      split; [reflexivity|].
      split; [reflexivity|repeat constructor; assumption].
  - split; [split; [discriminate|]|].
    + intros H. inversion H as [|? ? _ H']; subst.
      inversion H' as [|? ? _ H'']; subst. inversion H''; subst. congruence.
    + intros op [= <-]. split; [exact E3|].
      exists [Access; EnsureDir (js "/qr")], [].
      split; [reflexivity|].
      split; [reflexivity|repeat constructor; assumption].
  - split; [split|].
    + intros _. repeat constructor; assumption.
    + intros _. reflexivity.
    + intros op H. discriminate H.
Qed.

End Uploads.

(** ** The text of a message *)

Section TheText.

Lemma date_at_split x g r :
  date_at x = Some (g, r) -> x = g ++ r /\ is_group g.
Proof.
  unfold is_group, date_at.
  destruct x as [|a [|b [|s1 [|c [|d [|s2 [|e [|f [|g' [|h r']]]]]]]]]];
    try discriminate.
  match goal with |- context [if ?c then _ else _] => destruct c eqn:E end;
    [|discriminate].
  intros [= <- <-]. rewrite E. split; reflexivity.
Qed.

Lemma trimStart_split s :
  exists ws, s = ws ++ trimStart s /\ Forall (fun c => is_space c = true) ws.
Proof.
  induction s as [|c s (ws & IH & Hws)];
    [exists []; split; [reflexivity|constructor]|].
  cbn [trimStart]. destruct (is_space c) eqn:Ec.
  - exists (c :: ws). split; [cbn [app]; f_equal; exact IH|].
    constructor; assumption.
  - exists []. split; [reflexivity|constructor].
Qed.

Lemma match_at_split x g1 g2 :
  match_at x = Some (g1, g2) ->
  exists ws1 ws2 post,
    x = g1 ++ ws1 ++ [45%N] ++ ws2 ++ g2 ++ post /\
    is_group g1 /\ is_group g2 /\
    Forall (fun c => is_space c = true) ws1 /\
    Forall (fun c => is_space c = true) ws2.
Proof.
  unfold match_at.
  destruct (date_at x) as [[g r1]|] eqn:E1; [|discriminate].
  cbn [mbind option_bind].
  destruct (trimStart_split r1) as (ws1 & Hr1 & Hw1).
  destruct (trimStart r1) as [|c r2]; [discriminate|].
  destruct (N.eqb_spec c 45) as [->|Hc].
  2:{ destruct c as [|p]; try discriminate.
      do 6 (destruct p; try discriminate). congruence. }
  destruct (trimStart_split r2) as (ws2 & Hr2 & Hw2).
  destruct (date_at (trimStart r2)) as [[g' post]|] eqn:E2; [|discriminate].
  cbn [mbind option_bind]. intros [= <- <-].
  apply date_at_split in E1 as [-> Hg1], E2 as [E2 Hg2].
  exists ws1, ws2, post. split; [|auto].
  f_equal. rewrite Hr1. f_equal. cbn [app]. f_equal. rewrite Hr2, E2.
  reflexivity.
Qed.

(** X15. The pattern of the handler finds a range exactly in the texts that hold
    two groups [dd/dd/dddd] with a hyphen between them and nothing but
    white space around the hyphen; the groups it returns are those of the
    leftmost such place. *)
Theorem regex_match_occurrence s :
  (forall g1 g2,
     regex_match s = Some (g1, g2) ->
     exists pre ws1 ws2 post,
       s = pre ++ g1 ++ ws1 ++ [45%N] ++ ws2 ++ g2 ++ post /\
       is_group g1 /\ is_group g2 /\
       Forall (fun c => is_space c = true) ws1 /\
       Forall (fun c => is_space c = true) ws2 /\
       forall k, (k < length pre)%nat -> match_at (drop k s) = None) /\
  (forall pre g1 ws1 ws2 g2 post,
     s = pre ++ g1 ++ ws1 ++ [45%N] ++ ws2 ++ g2 ++ post ->
     is_group g1 -> is_group g2 ->
     Forall (fun c => is_space c = true) ws1 ->
     Forall (fun c => is_space c = true) ws2 ->
     is_Some (regex_match s)).
Proof.
  split.
  - intros g1 g2. induction s as [|c s IH]; cbn [regex_match].
    + destruct (match_at []) as [m|] eqn:E; [|discriminate].
      intros [= ->].
      destruct (match_at_split _ _ _ E) as (ws1 & ws2 & post & H).
      exists [], ws1, ws2, post. split; [apply H|].
      split; [apply H|]. split; [apply H|]. split; [apply H|].
      split; [apply H|]. cbn [length]. lia.
    + destruct (match_at (c :: s)) as [m|] eqn:E.
      * intros [= ->].
        destruct (match_at_split _ _ _ E) as (ws1 & ws2 & post & H).
        exists [], ws1, ws2, post. split; [apply H|].
        split; [apply H|]. split; [apply H|]. split; [apply H|].
        split; [apply H|]. cbn [length]. lia.
      * intros Hs.
        destruct (IH Hs)
          as (pre & ws1 & ws2 & post & -> & H1 & H2 & H3 & H4 & H5).
        exists (c :: pre), ws1, ws2, post. split; [reflexivity|].
        split; [exact H1|]. split; [exact H2|]. split; [exact H3|].
        split; [exact H4|]. intros [|k] Hk; [exact E|].
        cbn [drop]. apply H5. cbn [length] in Hk. lia.
  - intros pre g1 ws1 ws2 g2 post -> H1 H2 H3 H4.
    induction pre as [|c pre IH].
    + rewrite app_nil_l.
      rewrite (regex_match_head _ _
                 (match_at_embedded _ _ _ _ post H1 H2 H3 H4)).
      eexists. reflexivity.
    + cbn [app regex_match].
      destruct (match_at _); [eexists; reflexivity|exact IH].
Qed.

Lemma trimStart_app_spaces s ws :
  Forall (fun c => is_space c = true) ws ->
  trimStart (s ++ ws)
  = match trimStart s with [] => [] | _ :: _ => trimStart s ++ ws end.
Proof.
  intros Hws. induction s as [|c s IH].
  - cbn [app trimStart].
    rewrite <- (app_nil_r ws), trimStart_spaces by exact Hws.
    reflexivity.
  - cbn [app trimStart]. destruct (is_space c); [exact IH|reflexivity].
Qed.

Lemma trimEnd_app_spaces s ws :
  Forall (fun c => is_space c = true) ws -> trimEnd (s ++ ws) = trimEnd s.
Proof.
  intros Hws. unfold trimEnd.
  rewrite rev_app_distr, trimStart_spaces; [reflexivity|].
  apply List.Forall_forall. intros c Hc%in_rev.
  exact (proj1 (List.Forall_forall _ _) Hws c Hc).
Qed.

Lemma trim_spaces ws1 s ws2 :
  Forall (fun c => is_space c = true) ws1 ->
  Forall (fun c => is_space c = true) ws2 ->
  trim (ws1 ++ s ++ ws2) = trim s.
Proof.
  intros H1 H2. unfold trim.
  rewrite trimStart_spaces by exact H1.
  rewrite trimStart_app_spaces by exact H2.
  destruct (trimStart s) as [|c t] eqn:E; [reflexivity|].
  apply trimEnd_app_spaces, H2.
Qed.

(** X16. White space around the text of a message changes nothing in the turn,
    and a request without text is handled as one with an empty text. *)
Theorem surrounding_space_is_ignored env from ws1 b ws2 w :
  Forall (fun c => is_space c = true) ws1 ->
  Forall (fun c => is_space c = true) ws2 ->
  whatsapp env {| Body := Some (ws1 ++ b ++ ws2); From := from |} w
  = whatsapp env {| Body := Some b; From := from |} w
  /\ whatsapp env {| Body := Some (ws1 ++ ws2); From := from |} w
     = whatsapp env {| Body := None; From := from |} w.
Proof.
  intros H1 H2. unfold whatsapp, incomingMsg. cbn [Body From].
  rewrite (trim_spaces ws1 b ws2 H1 H2).
  change (ws1 ++ ws2) with (ws1 ++ [] ++ ws2).
  rewrite (trim_spaces ws1 [] ws2 H1 H2).
  split; reflexivity.
Qed.

Lemma strip_prefix_app p s : strip_prefix p (p ++ s) = Some s.
Proof.
  induction p as [|c p IH]; [destruct s; reflexivity|].
  cbn [app strip_prefix]. rewrite N.eqb_refl. exact IH.
Qed.

End TheText.

Lemma remove_first_app p s : remove_first p (p ++ s) = s.
Proof.
  pose proof (strip_prefix_app p s) as H.
  destruct (p ++ s) as [|c t]; cbn [remove_first]; rewrite H; reflexivity.
Qed.

(** X17. The telephone stored with a booking is the sender without the name of
    the channel. *)
Theorem phone_is_sender_without_channel env req w n :
  From req = js "whatsapp:" ++ n ->
  forall d, In d (reservas (snd (whatsapp env req w))) ->
    In d (reservas w) \/ phone (snd d) = n.
Proof.
  intros Hfrom d.
  destruct (reservas_step env req w) as [->|(s & e & _ & _ & _ & ->)];
    [left; assumption|].
  intros [Hin|[<-|[]]]%in_app_or; [left; exact Hin|]. right.
  cbn [snd phone la_reserva]. rewrite Hfrom. apply remove_first_app.
Qed.

(** ** The earlier entry point, turn by turn *)

(** The branches of a turn of the earlier handler. *)
Ltac part000_cases env engineDate req w :=
  let Ha := fresh "Ha" in
  destruct (decide (step <$> sessions w !! From req = Some waiting_dates))
    as [Ha|Ha];
  [ rewrite (part000_whatsapp_awaiting env engineDate req w Ha);
    let m1 := fresh "m1" in
    let m2 := fresh "m2" in
    let Hm := fresh "Hm" in
    destruct (regex_match (incomingMsg req)) as [[m1 m2]|] eqn:Hm;
    [ rewrite reservar_run; cbv zeta;
      let Eg := fresh "Eg" in
      destruct (fails env (FirestoreGet (js "1"))) eqn:Eg;
      [ | let Es := fresh "Es" in
          destruct (scan (bookings_of (js "1") w)
                      (format (engineDate m1)) (format (engineDate m2)))
            eqn:Es;
          [ unfold pipeline, until_failure; split_calls env
          | split_calls env ] ]
    | cbv zeta; split_calls env ]
  | unfold Part000.whatsapp, sessions_get; rewrite bind_run;
    rewrite (bool_decide_eq_false_2 _ Ha);
    let E1 := fresh "E1" in
    destruct (str_eq (toLowerCase (incomingMsg req)) (js "1")) eqn:E1;
    [ unfold sendMessage, sessions_set, emit; run env; one_call env
    | let G := fresh "Egreet" in
      destruct (str_eq (toLowerCase (incomingMsg req)) (js "hola")
                || str_eq (toLowerCase (incomingMsg req)) (js "menu")) eqn:G;
      unfold sendMessage; run env; one_call env ] ].

Section EarlierTurns.

Variable env : Env.
Variable engineDate : jsstring -> option Z.

(** X18. The earlier handler also sends one message, to the sender, in a
    turn that completes and none in a turn that throws; it never asks the
    chat model. *)
Theorem part000_one_message_per_turn req w :
  exists l,
    log (snd (Part000.whatsapp env engineDate req w)) = log w ++ l /\
    questions l = [] /\
    match fst (Part000.whatsapp env engineDate req w) with
    | Ok r =>
        r = Status 200 /\
        exists body media, messages l = [(From req, body, media)]
    | Throw _ => messages l = []
    end.
Proof.
  part000_cases env engineDate req w; the_log; observed;
    (split; [reflexivity|]);
    first [ reflexivity
          | split; [reflexivity | eexists; eexists; reflexivity] ].
Qed.

End EarlierTurns.


(** X20. The earlier handler does not ask whether the engine could read the
    dates: a range the engine reads as no date is handed to the
    availability check as ['Invalid Date'] to ['Invalid Date'] and, when
    the check finds that range free and the collaborators answer, stored
    as a booking with these two dates. *)
Theorem part000_unread_dates_are_booked env engineDate req w m1 m2 :
  awaiting w (From req) ->
  regex_match (incomingMsg req) = Some (m1, m2) ->
  engineDate m1 = None -> engineDate m2 = None ->
  let s := INVALID_DATE_STRING in
  fst (isRangeAvailable env (js "1") s s w) = Ok true ->
  Forall (fun c => fails env c = false)
    (pipeline (newId env) (From req) s s) ->
  fst (Part000.whatsapp env engineDate req w) = Ok (Status 200) /\
  reservas (snd (Part000.whatsapp env engineDate req w))
  = reservas w ++ [(newId env, la_reserva (From req) s s)].
Proof.
  intros Ha Hm H1 H2 s Hav Hall.
  rewrite (part000_whatsapp_awaiting env _ req w Ha), Hm, H1, H2.
  change (format None) with s.
  rewrite reservar_run. rewrite isRangeAvailable_run in Hav. cbv zeta.
  destruct (fails env (FirestoreGet (js "1"))); [discriminate Hav|].
  cbn [fst] in Hav. injection Hav as ->.
  rewrite (until_failure_all _ _ Hall). split; reflexivity.
Qed.

(** ** Dates as strings *)

Section IsoOrder.

Local Open Scope Z_scope.

Lemma day_within_year t :
  let y := YearFromDay t in
  0 <= t - DayFromYear y < 365 + InLeapYear y.
Proof.
  cbv zeta. pose proof (YearFromDay_spec t) as H.
  rewrite DayFromYear_succ in H. unfold DaysInYear in H. lia.
Qed.

Ltac month_chain :=
  repeat match goal with
         | |- context [if ?a <? ?b then _ else _] =>
             destruct (Z.ltb_spec a b)
         | H : context [if ?a <? ?b then _ else _] |- _ =>
             destruct (Z.ltb_spec a b)
         end.

Lemma getters_range t :
  let y := YearFromDay t in
  0 <= getMonth t <= 11 /\ 1 <= getDate t <= 31 /\
  t = DayFromYear y + DaysBeforeMonth (getMonth t) (InLeapYear y)
      + getDate t - 1.
Proof.
  cbv zeta. pose proof (day_within_year t) as H. cbv zeta in H.
  unfold getMonth, getDate.
  set (dw := t - DayFromYear (YearFromDay t)) in *.
  assert (Ht : t = DayFromYear (YearFromDay t) + dw) by (subst dw; lia).
  clearbody dw. revert Ht. generalize (DayFromYear (YearFromDay t)).
  intros d0 Ht.
  destruct (InLeapYear_cases (YearFromDay t)) as [E|E]; rewrite E in *;
    unfold MonthFromDay; month_chain; cbn [DaysBeforeMonth]; lia.
Qed.

Lemma same_year_order dw1 dw2 L :
  L = 0 \/ L = 1 -> 0 <= dw1 < dw2 ->
  let m1 := MonthFromDay dw1 L in
  let m2 := MonthFromDay dw2 L in
  m1 < m2 \/
  (m1 = m2 /\ dw1 - DaysBeforeMonth m1 L < dw2 - DaysBeforeMonth m2 L).
Proof.
  intros HL H. cbv zeta. unfold MonthFromDay.
  destruct HL as [-> | ->]; month_chain; cbn [DaysBeforeMonth]; lia.
Qed.

Lemma YearFromDay_mono t1 t2 : t1 <= t2 -> YearFromDay t1 <= YearFromDay t2.
Proof.
  intros H. pose proof (YearFromDay_spec t1) as H1.
  pose proof (YearFromDay_spec t2) as H2.
  destruct (Z_lt_le_dec (YearFromDay t2) (YearFromDay t1)) as [Hlt|]; [|lia].
  pose proof (DayFromYear_mono (YearFromDay t2 + 1) (YearFromDay t1)
                ltac:(lia)). lia.
Qed.

Lemma iso_key_lt t1 t2 : t1 < t2 -> iso_key t1 < iso_key t2.
Proof.
  intros H. unfold iso_key.
  pose proof (getters_range t1) as (Hm1 & Hd1 & _).
  pose proof (getters_range t2) as (Hm2 & Hd2 & _).
  pose proof (YearFromDay_mono t1 t2 ltac:(lia)) as Hy.
  unfold getFullYear.
  destruct (Z.eq_dec (YearFromDay t1) (YearFromDay t2)) as [Heq|Hne];
    [|lia].
  pose proof (day_within_year t1) as Hw1. cbv zeta in Hw1.
  pose proof (same_year_order (t1 - DayFromYear (YearFromDay t1))
                (t2 - DayFromYear (YearFromDay t1))
                (InLeapYear (YearFromDay t1))
                (InLeapYear_cases _) ltac:(lia)) as Ho.
  cbv zeta in Ho. unfold getMonth, getDate in *. rewrite <- Heq in *.
  lia.
Qed.

Lemma iso_key_order t1 t2 : (iso_key t1 <? iso_key t2) = (t1 <? t2).
Proof.
  destruct (Z.ltb_spec t1 t2) as [H|H].
  - apply Z.ltb_lt, iso_key_lt, H.
  - apply Z.ltb_ge. destruct (Z.eq_dec t1 t2) as [->|Hne]; [lia|].
    pose proof (iso_key_lt t2 t1 ltac:(lia)). lia.
Qed.

Lemma two_digits n :
  0 <= n <= 99 -> exists a b, 0 <= a <= 9 /\ 0 <= b <= 9 /\ n = 10 * a + b.
Proof.
  intros H. exists (n / 10), (n mod 10).
  pose proof (Z.div_mod n 10 ltac:(lia)).
  pose proof (Z.mod_pos_bound n 10 ltac:(lia)).
  split; [|lia]. split; [apply Z.div_pos; lia|].
  apply Z.lt_succ_r, Z.div_lt_upper_bound; lia.
Qed.

Lemma four_digits n :
  0 <= n <= 9999 ->
  exists a b c d,
    0 <= a <= 9 /\ 0 <= b <= 9 /\ 0 <= c <= 9 /\ 0 <= d <= 9 /\
    n = 1000 * a + 100 * b + 10 * c + d.
Proof.
  intros H.
  pose proof (Z.div_mod n 100 ltac:(lia)) as E.
  pose proof (Z.mod_pos_bound n 100 ltac:(lia)) as Hm.
  assert (Hq : 0 <= n / 100 <= 99).
  { split; [apply Z.div_pos; lia|].
    apply Z.lt_succ_r, Z.div_lt_upper_bound; lia. }
  destruct (two_digits (n / 100) Hq) as (a & b & Ha & Hb & Hab).
  destruct (two_digits (n mod 100) ltac:(lia)) as (c & d & Hc & Hd & Hcd).
  exists a, b, c, d. lia.
Qed.

Lemma format_digits t :
  0 <= getFullYear t <= 9999 ->
  exists a b c d e f g h,
    (0 <= a <= 9 /\ 0 <= b <= 9 /\ 0 <= c <= 9 /\ 0 <= d <= 9) /\
    (0 <= e <= 9 /\ 0 <= f <= 9 /\ 0 <= g <= 9 /\ 0 <= h <= 9) /\
    format (Some t)
    = [digit_char a; digit_char b; digit_char c; digit_char d; 45%N;
       digit_char e; digit_char f; 45%N; digit_char g; digit_char h] /\
    iso_key t
    = 10000000 * a + 1000000 * b + 100000 * c + 10000 * d
      + 1000 * e + 100 * f + 10 * g + h.
Proof.
  intros Hy. pose proof (getters_range t) as (Hm & Hd & _).
  destruct (four_digits _ Hy) as (a & b & c & d & Ha & Hb & Hc & Hd' & Ey).
  destruct (two_digits (getMonth t + 1) ltac:(lia)) as (e & f & He & Hf & Em).
  destruct (two_digits (getDate t) ltac:(lia)) as (g & h & Hg & Hh & Ed).
  exists a, b, c, d, e, f, g, h.
  split; [tauto|]. split; [tauto|]. split.
  - unfold format. rewrite Ey, Em, Ed.
    rewrite padStart4 by assumption. rewrite !padStart2 by assumption.
    reflexivity.
  - unfold iso_key. rewrite Ey, Em, Ed. lia.
Qed.

Lemma str_lt_digit a a' s s' :
  0 <= a <= 9 -> 0 <= a' <= 9 ->
  str_lt (digit_char a :: s) (digit_char a' :: s')
  = if a <? a' then true else if a' <? a then false else str_lt s s'.
Proof.
  intros H H'. unfold digit_char. cbn [str_lt].
  destruct (Z.ltb_spec a a'), (Z.ltb_spec a' a);
    repeat match goal with
           | |- context [(?x <? ?y)%N] => destruct (N.ltb_spec x y)
           end; first [reflexivity | lia].
Qed.

Lemma str_lt_hyphen s s' : str_lt (45%N :: s) (45%N :: s') = str_lt s s'.
Proof. reflexivity. Qed.

Lemma str_lt_iso a b c d e f g h a' b' c' d' e' f' g' h' :
  (0 <= a <= 9 /\ 0 <= b <= 9 /\ 0 <= c <= 9 /\ 0 <= d <= 9) ->
  (0 <= e <= 9 /\ 0 <= f <= 9 /\ 0 <= g <= 9 /\ 0 <= h <= 9) ->
  (0 <= a' <= 9 /\ 0 <= b' <= 9 /\ 0 <= c' <= 9 /\ 0 <= d' <= 9) ->
  (0 <= e' <= 9 /\ 0 <= f' <= 9 /\ 0 <= g' <= 9 /\ 0 <= h' <= 9) ->
  str_lt
    [digit_char a; digit_char b; digit_char c; digit_char d; 45%N;
     digit_char e; digit_char f; 45%N; digit_char g; digit_char h]
    [digit_char a'; digit_char b'; digit_char c'; digit_char d'; 45%N;
     digit_char e'; digit_char f'; 45%N; digit_char g'; digit_char h']
  = (10000000 * a + 1000000 * b + 100000 * c + 10000 * d
     + 1000 * e + 100 * f + 10 * g + h
     <? 10000000 * a' + 1000000 * b' + 100000 * c' + 10000 * d'
        + 1000 * e' + 100 * f' + 10 * g' + h').
Proof.
  intros H1 H2 H3 H4.
  rewrite !str_lt_digit, str_lt_hyphen, !str_lt_digit, str_lt_hyphen,
    !str_lt_digit by tauto.
  cbn [str_lt].
  repeat match goal with
         | |- context [if ?x <? ?y then _ else _] => destruct (Z.ltb_spec x y)
         end;
    symmetry; first [apply Z.ltb_lt; lia | apply Z.ltb_ge; lia].
Qed.

Lemma str_lt_format t1 t2 :
  0 <= getFullYear t1 <= 9999 ->
  0 <= getFullYear t2 <= 9999 ->
  str_lt (format (Some t1)) (format (Some t2)) = (t1 <? t2).
Proof.
  intros H1 H2.
  destruct (format_digits t1 H1)
    as (a & b & c & d & e & f & g & h & Ha & He & -> & K1).
  destruct (format_digits t2 H2)
    as (a' & b' & c' & d' & e' & f' & g' & h' & Ha' & He' & -> & K2).
  rewrite (str_lt_iso _ _ _ _ _ _ _ _ _ _ _ _ _ _ _ _ Ha He Ha' He').
  rewrite <- K1, <- K2. apply iso_key_order.
Qed.

(** X21. The strings [YYYY-MM-DD] the handler compares are ordered as the days
    they name, for the years 0000 to 9999; two days give the same string
    only when they are the same day. *)
Theorem iso_order_is_day_order t1 t2 :
  0 <= getFullYear t1 <= 9999 ->
  0 <= getFullYear t2 <= 9999 ->
  str_lt (format (Some t1)) (format (Some t2)) = (t1 <? t2) /\
  (format (Some t1) = format (Some t2) -> t1 = t2).
Proof.
  intros H1 H2. split; [exact (str_lt_format t1 t2 H1 H2)|].
  intros E.
  pose proof (str_lt_format t1 t2 H1 H2) as L12.
  pose proof (str_lt_format t2 t1 H2 H1) as L21.
  rewrite E, str_lt_irrefl in L12. rewrite E, str_lt_irrefl in L21.
  symmetry in L12, L21. apply Z.ltb_ge in L12, L21. lia.
Qed.

(** X22. On dates written by [format], the test of [isRangeAvailable] is the
    overlap of two closed ranges of days: a request from day [a] to day [b]
    conflicts with a booking from [c] to [d] exactly when [c <= b] and
    [a <= d]. *)
Theorem conflict_is_overlap_of_days from a b c d :
  Forall (fun t => 0 <= getFullYear t <= 9999) [a; b; c; d] ->
  conflicts (format (Some a)) (format (Some b))
    (la_reserva from (format (Some c)) (format (Some d)))
  <-> c <= b /\ a <= d.
Proof.
  intros H. inversion H as [|? ? Ha H1]; subst.
  inversion H1 as [|? ? Hb H2]; subst. inversion H2 as [|? ? Hc H3]; subst.
  inversion H3 as [|? ? Hd _]; subst.
  unfold conflicts, str_gt. cbn [fechaEntrada fechaSalida la_reserva].
  rewrite (str_lt_format b c Hb Hc), (str_lt_format d a Hd Ha).
  rewrite !Z.ltb_lt. lia.
Qed.

End IsoOrder.

Lemma iso_order_is_day_order_witness :
  (0 <= getFullYear (MakeDay 2025 9 23) <= 9999)%Z /\
  (0 <= getFullYear (MakeDay 2025 10 2) <= 9999)%Z /\
  str_lt (format (Some (MakeDay 2025 9 23)))
    (format (Some (MakeDay 2025 10 2)))
  = (MakeDay 2025 9 23 <? MakeDay 2025 10 2)%Z /\
  (format (Some (MakeDay 2025 9 23)) = format (Some (MakeDay 2025 10 2)) ->
   MakeDay 2025 9 23 = MakeDay 2025 10 2).
Proof.
  assert (H1 : (0 <= getFullYear (MakeDay 2025 9 23) <= 9999)%Z)
    by (vm_compute; split; discriminate).
  assert (H2 : (0 <= getFullYear (MakeDay 2025 10 2) <= 9999)%Z)
    by (vm_compute; split; discriminate).
  exact (conj H1 (conj H2
           (iso_order_is_day_order (MakeDay 2025 9 23) (MakeDay 2025 10 2)
              H1 H2))).
Defined.

Lemma conflict_is_overlap_of_days_witness :
  Forall (fun t => (0 <= getFullYear t <= 9999)%Z)
    [MakeDay 2025 9 23; MakeDay 2025 9 25;
     MakeDay 2025 9 20; MakeDay 2025 9 23] /\
  (conflicts (format (Some (MakeDay 2025 9 23)))
     (format (Some (MakeDay 2025 9 25)))
     (la_reserva U1 (format (Some (MakeDay 2025 9 20)))
        (format (Some (MakeDay 2025 9 23))))
   <-> (MakeDay 2025 9 20 <= MakeDay 2025 9 25
        /\ MakeDay 2025 9 23 <= MakeDay 2025 9 23)%Z).
Proof.
  assert (H : Forall (fun t => (0 <= getFullYear t <= 9999)%Z)
                [MakeDay 2025 9 23; MakeDay 2025 9 25;
                 MakeDay 2025 9 20; MakeDay 2025 9 23])
    by (repeat constructor; vm_compute; discriminate).
  exact (conj H
           (conflict_is_overlap_of_days U1 (MakeDay 2025 9 23)
              (MakeDay 2025 9 25) (MakeDay 2025 9 20) (MakeDay 2025 9 23)
              H)).
Defined.

(** ** The properties on concrete turns *)

Lemma silent_sender_keeps_session_witness :
  Forall (fun t => From (snd t) <> js "whatsapp:+34600")
    [(env_ok, req_uno); (env_ok, req_octubre)] /\
  sessions (serve [(env_ok, req_uno); (env_ok, req_octubre)] w_idle)
    !! js "whatsapp:+34600"
  = sessions w_idle !! js "whatsapp:+34600".
Proof.
  assert (H : Forall (fun t => From (snd t) <> js "whatsapp:+34600")
                [(env_ok, req_uno); (env_ok, req_octubre)])
    by (repeat constructor; intros E; vm_compute in E; discriminate E).
  exact (conj H
           (silent_sender_keeps_session (js "whatsapp:+34600")
              [(env_ok, req_uno); (env_ok, req_octubre)] w_idle H)).
Defined.

Lemma bookings_never_overlap_witness :
  no_overlaps (bookings_of (js "1") (boot (reservas w_booked))) /\
  no_overlaps
    (bookings_of (js "1")
       (serve [(env_ok, req_uno); (env_ok, req_octubre)]
          (boot (reservas w_booked)))).
Proof.
  assert (H : no_overlaps (bookings_of (js "1") (boot (reservas w_booked))))
    by (vm_compute; split; [intros ? []|exact I]).
  exact (conj H
           (bookings_never_overlap (reservas w_booked)
              [(env_ok, req_uno); (env_ok, req_octubre)] H)).
Defined.

Lemma booked_range_free_again_iff_reversed_witness :
  awaiting w_waiting (From req_octubre) /\
  parse_range (today env_ftp_down) (incomingMsg req_octubre)
  = Some (js "2025-10-20", js "2025-10-23") /\
  fst (isRangeAvailable env_ftp_down (js "1") (js "2025-10-20")
         (js "2025-10-23") w_waiting) = Ok true /\
  fails env_ftp_down
    (FirestoreAdd (la_reserva (From req_octubre) (js "2025-10-20")
                     (js "2025-10-23"))) = false /\
  fails env_ok (FirestoreGet (js "1")) = false /\
  fst (isRangeAvailable env_ok (js "1") (js "2025-10-20") (js "2025-10-23")
         (snd (whatsapp env_ftp_down req_octubre w_waiting)))
  = Ok (str_lt (js "2025-10-23") (js "2025-10-20")).
Proof.
  assert (H1 : awaiting w_waiting (From req_octubre))
    by (vm_compute; reflexivity).
  assert (H2 : parse_range (today env_ftp_down) (incomingMsg req_octubre)
               = Some (js "2025-10-20", js "2025-10-23"))
    by (vm_compute; reflexivity).
  assert (H3 : fst (isRangeAvailable env_ftp_down (js "1") (js "2025-10-20")
                      (js "2025-10-23") w_waiting) = Ok true)
    by (vm_compute; reflexivity).
  assert (H4 : fails env_ftp_down
                 (FirestoreAdd (la_reserva (From req_octubre)
                                  (js "2025-10-20") (js "2025-10-23")))
               = false) by reflexivity.
  assert (H5 : fails env_ok (FirestoreGet (js "1")) = false) by reflexivity.
  exact (conj H1 (conj H2 (conj H3 (conj H4 (conj H5
           (booked_range_free_again_iff_reversed env_ftp_down env_ok
              req_octubre w_waiting (js "2025-10-20") (js "2025-10-23")
              H1 H2 H3 H4 H5)))))).
Defined.

Lemma availability_ignores_document_order_witness :
  reservas w_two ≡ₚ reservas w_two_swapped /\
  fst (isRangeAvailable env_ok (js "1") (js "2025-10-23") (js "2025-10-25")
         w_two)
  = fst (isRangeAvailable env_ok (js "1") (js "2025-10-23")
           (js "2025-10-25") w_two_swapped).
Proof.
  assert (H : reservas w_two ≡ₚ reservas w_two_swapped)
    by apply perm_swap.
  exact (conj H
           (availability_ignores_document_order env_ok (js "1")
              (js "2025-10-23") (js "2025-10-25") w_two w_two_swapped H)).
Defined.

Lemma free_text_turn_witness :
  ~ awaiting w_idle (From req_machu) /\
  free_text req_machu /\
  let ask := OpenAIChat (incomingMsg req_machu) in
  let answer :=
    TwilioCreate (From req_machu)
      (js "🤖 " ++ aiResponse env_robot_refused (incomingMsg req_machu))
      None in
  let sorry :=
    TwilioCreate (From req_machu)
      (js "Lo siento, no pude procesar tu consulta ahora.") None in
  let asked := if fails env_robot_refused ask then [] else [Called ask] in
  let after l r :=
    (r, {| sessions := sessions w_idle; reservas := reservas w_idle;
           log := log w_idle ++ l |}) in
  whatsapp env_robot_refused req_machu w_idle =
  if negb (fails env_robot_refused ask)
     && negb (fails env_robot_refused answer)
  then after [Called ask; Called answer] (Ok (Status 200))
  else if fails env_robot_refused sorry then after asked (Throw sorry)
  else after (asked ++ [Called sorry]) (Ok (Status 200)).
Proof.
  assert (H1 : ~ awaiting w_idle (From req_machu))
    by (intros E; vm_compute in E; discriminate E).
  assert (H2 : free_text req_machu)
    by (repeat split; intros E; vm_compute in E; discriminate E).
  exact (conj H1 (conj H2
           (free_text_turn env_robot_refused req_machu w_idle H1 H2))).
Defined.

Lemma surrounding_space_is_ignored_witness :
  Forall (fun c => is_space c = true) (js "  ") /\
  Forall (fun c => is_space c = true) [10%N] /\
  whatsapp env_ok
    {| Body := Some (js "  " ++ js "Hola" ++ [10%N]); From := U1 |} w_idle
  = whatsapp env_ok {| Body := Some (js "Hola"); From := U1 |} w_idle
  /\ whatsapp env_ok
       {| Body := Some (js "  " ++ [10%N]); From := U1 |} w_idle
     = whatsapp env_ok {| Body := None; From := U1 |} w_idle.
Proof.
  assert (H1 : Forall (fun c => is_space c = true) (js "  "))
    by (vm_compute; repeat constructor).
  assert (H2 : Forall (fun c => is_space c = true) [10%N])
    by (repeat constructor).
  exact (conj H1 (conj H2
           (surrounding_space_is_ignored env_ok U1 (js "  ") (js "Hola")
              [10%N] w_idle H1 H2))).
Defined.

Lemma phone_is_sender_without_channel_witness :
  From req_octubre = js "whatsapp:" ++ js "+51999888777" /\
  forall d, In d (reservas (snd (whatsapp env_ok req_octubre w_waiting))) ->
    In d (reservas w_waiting) \/ phone (snd d) = js "+51999888777".
Proof.
  assert (H : From req_octubre = js "whatsapp:" ++ js "+51999888777")
    by (vm_compute; reflexivity).
  exact (conj H
           (phone_is_sender_without_channel env_ok req_octubre w_waiting
              (js "+51999888777") H)).
Defined.


Lemma part000_unread_dates_are_booked_witness :
  awaiting w_waiting (From req_octubre) /\
  regex_match (incomingMsg req_octubre)
  = Some (js "20/10/2025", js "23/10/2025") /\
  engine_mdy (js "20/10/2025") = None /\
  engine_mdy (js "23/10/2025") = None /\
  let s := INVALID_DATE_STRING in
  fst (isRangeAvailable env_ok (js "1") s s w_waiting) = Ok true /\
  Forall (fun c => fails env_ok c = false)
    (pipeline (newId env_ok) (From req_octubre) s s) /\
  fst (Part000.whatsapp env_ok engine_mdy req_octubre w_waiting)
  = Ok (Status 200) /\
  reservas (snd (Part000.whatsapp env_ok engine_mdy req_octubre w_waiting))
  = reservas w_waiting ++ [(newId env_ok, la_reserva (From req_octubre) s s)].
Proof.
  assert (H1 : awaiting w_waiting (From req_octubre))
    by (vm_compute; reflexivity).
  assert (H2 : regex_match (incomingMsg req_octubre)
               = Some (js "20/10/2025", js "23/10/2025"))
    by (vm_compute; reflexivity).
  assert (E1 : engine_mdy (js "20/10/2025") = None)
    by (vm_compute; reflexivity).
  assert (E2 : engine_mdy (js "23/10/2025") = None)
    by (vm_compute; reflexivity).
  assert (H3 : fst (isRangeAvailable env_ok (js "1") INVALID_DATE_STRING
                      INVALID_DATE_STRING w_waiting) = Ok true)
    by (vm_compute; reflexivity).
  assert (H4 : Forall (fun c => fails env_ok c = false)
                 (pipeline (newId env_ok) (From req_octubre)
                    INVALID_DATE_STRING INVALID_DATE_STRING))
    by (repeat constructor).
  exact (conj H1 (conj H2 (conj E1 (conj E2 (conj H3 (conj H4
           (part000_unread_dates_are_booked env_ok engine_mdy req_octubre
              w_waiting (js "20/10/2025") (js "23/10/2025")
              H1 H2 E1 E2 H3 H4))))))).
Defined.


(** ** No invalid date from the plugin *)

Section NeverInvalid.

Local Open Scope Z_scope.

(** X23. With the plugin, every range the pattern finds is read as two days:
    the dates handed to the availability check and stored with a booking
    are never ['Invalid Date']. *)
Theorem parsed_dates_are_never_invalid now text s e :
  parse_range now text = Some (s, e) ->
  (exists t1 t2, s = format (Some t1) /\ e = format (Some t2)) /\
  s <> INVALID_DATE_STRING /\ e <> INVALID_DATE_STRING.
Proof.
  unfold parse_range.
  destruct (regex_match text) as [[m1 m2]|] eqn:Hm; [|discriminate].
  destruct (regex_match_is_group _ _ _ Hm) as [G1 G2].
  destruct (dayjs_of_group now _ G1) as (t1 & ->).
  destruct (dayjs_of_group now _ G2) as (t2 & ->).
  intros [= <- <-]. split; [exists t1, t2; split; reflexivity|].
  split; apply format_is_not_invalid.
Qed.

End NeverInvalid.

Lemma parsed_dates_are_never_invalid_witness :
  parse_range now0 (js "31/02/2025 - 05/03/2025")
  = Some (js "2025-03-03", js "2025-03-05") /\
  (exists t1 t2,
     js "2025-03-03" = format (Some t1) /\
     js "2025-03-05" = format (Some t2)) /\
  js "2025-03-03" <> INVALID_DATE_STRING /\
  js "2025-03-05" <> INVALID_DATE_STRING.
Proof.
  assert (H : parse_range now0 (js "31/02/2025 - 05/03/2025")
              = Some (js "2025-03-03", js "2025-03-05"))
    by (vm_compute; reflexivity).
  exact (conj H
           (parsed_dates_are_never_invalid now0
              (js "31/02/2025 - 05/03/2025") (js "2025-03-03")
              (js "2025-03-05") H)).
Defined.

Lemma proto_sender_waits_for_ever_witness :
  awaiting w_proto_waiting (js "__proto__") /\
  awaiting
    (serve [(env_ok, req_proto_octubre); (env_ok, req_octubre);
            (env_ok, req_proto_hello)] w_proto_waiting)
    (js "__proto__").
Proof.
  assert (H : awaiting w_proto_waiting (js "__proto__"))
    by (vm_compute; reflexivity).
  exact (conj H
           (proto_sender_waits_for_ever
              [(env_ok, req_proto_octubre); (env_ok, req_octubre);
               (env_ok, req_proto_hello)] w_proto_waiting H)).
Defined.
